(** * Review Board: the Bitbucket hosting service and the review request datagrid

    A shallow embedding of [reviewboard/hostingsvcs/bitbucket.py] and of
    [ReviewRequestDataGrid.load_extra_state] from
    [reviewboard/datagrids/grids.py].

    Python values that come out of [json.loads] are modelled by the type
    [json]; Python exceptions by the type [exn]; code that mutates the hosting
    account, talks to the HTTP client or closes review requests runs in a
    small state-and-exception monad [M] over the record [world]. *)

From stdpp Require Import gmap strings list fin_maps pretty.
From Stdlib Require Import ZArith String Ascii.

Local Open Scope Z_scope.
Set Warnings "-register-all".
Set Default Proof Using "Type".


(** ** Python values *)

(** What [json.loads] returns: [None], booleans, numbers, text, lists and
    dictionaries.  A dictionary keeps its items in iteration order; lookups
    take the first item with the key. *)
Inductive json : Type :=
| JNull
| JBool (b : bool)
| JNum (n : Z)
| JStr (s : string)
| JArr (items : list json)
| JObj (items : list (string * json)).

(** The exceptions the modelled code raises, catches or lets through. *)
Inductive exn : Type :=
| AttributeError
| TypeError
| KeyError (key : string)
| IndexError
| ValueError
| URLError
| HTTPError (code : Z) (body : string)
| HostingServiceError (msg : string) (http_code : option Z)
| AuthorizationError (msg : string)
| RepositoryError (msg : string)
| InvalidPlanError (plan : string)
| FileNotFoundError (path : string) (revision base_commit_id detail : option string)
| OtherException (name : string).

Definition result (A : Type) : Type := (exn + A)%type.

(** Truth value of a Python object, as tested by [if x:]. *)
Definition truthy (v : json) : bool :=
  match v with
  | JNull => false
  | JBool b => b
  | JNum n => negb (n =? 0)
  | JStr s => negb (String.eqb s "")
  | JArr l => match l with [] => false | _ => true end
  | JObj l => match l with [] => false | _ => true end
  end.

Definition str_truthy (s : string) : bool := negb (String.eqb s "").

Definition opt_truthy (o : option string) : bool :=
  match o with Some s => str_truthy s | None => false end.

(** [a or b] on optional text. *)
Definition py_or (a b : option string) : option string :=
  if opt_truthy a then a else b.

Fixpoint assoc (k : string) (items : list (string * json)) : option json :=
  match items with
  | [] => None
  | (k', v) :: rest => if String.eqb k k' then Some v else assoc k rest
  end.

(** [d.get(k, default)]: only dictionaries have the method. *)
Definition py_get (v : json) (k : string) (dflt : json) : result json :=
  match v with
  | JObj items => inr (default dflt (assoc k items))
  | _ => inl AttributeError
  end.

(** [d[k]] with a text key: a dictionary raises [KeyError] on a missing key;
    lists and text only take integer indices; the other values cannot be
    indexed. *)
Definition py_getitem (v : json) (k : string) : result json :=
  match v with
  | JObj items =>
      match assoc k items with Some x => inr x | None => inl (KeyError k) end
  | _ => inl TypeError
  end.

(** [l[0]]. *)
Definition py_first (v : json) : result json :=
  match v with
  | JArr (x :: _) => inr x
  | JArr [] => inl IndexError
  | JStr (String c _) => inr (JStr (String c ""))
  | JStr "" => inl IndexError
  | JObj _ => inl (KeyError "0")
  | _ => inl TypeError
  end.

Definition is_substring (needle s : string) : bool :=
  match String.index 0 needle s with Some _ => true | None => false end.

Definition json_is_str (s : string) (v : json) : bool :=
  match v with JStr s' => String.eqb s s' | _ => false end.

(** [k in v] for a text [k]: key membership on dictionaries, element
    membership on lists, substring test on text. *)
Definition py_in (k : string) (v : json) : result bool :=
  match v with
  | JObj items => inr (match assoc k items with Some _ => true | None => false end)
  | JArr l => inr (existsb (json_is_str k) l)
  | JStr s => inr (is_substring k s)
  | _ => inl TypeError
  end.

(** The items a [for] loop visits: the elements of a list, the keys of a
    dictionary, the characters of a text. *)
Definition py_iter (v : json) : result (list json) :=
  match v with
  | JArr l => inr l
  | JObj items => inr (map (fun kv => JStr kv.1) items)
  | JStr s => inr (map (fun c => JStr (String c "")) (list_ascii_of_string s))
  | _ => inl TypeError
  end.

(** [v[:n]]. *)
Definition py_slice_to (n : nat) (v : json) : result json :=
  match v with
  | JStr s => inr (JStr (String.substring 0 n s))
  | JArr l => inr (JArr (take n l))
  | _ => inl TypeError
  end.

(** [s.replace(' ', 'T')]. *)
Fixpoint replace_space_T (s : string) : string :=
  match s with
  | "" => ""
  | String c rest =>
      String (if Ascii.eqb c " " then "T"%char else c) (replace_space_T rest)
  end.

(** [b.endswith(b'\n')]. *)
Fixpoint endswith_newline (b : string) : bool :=
  match b with
  | "" => false
  | String c "" => Ascii.eqb c "010"
  | String _ rest => endswith_newline rest
  end.

Definition newline : string := String "010" "".

(** ** Domain objects *)

(** [reviewboard.scmtools.core.Branch]. *)
Record Branch := mkBranch {
  branch_id : string;
  branch_commit : json;
  branch_default : bool;
}.

(** [reviewboard.scmtools.core.Commit]. *)
Record Commit := mkCommit {
  author_name : json;
  commit_id : json;
  date : json;
  message : json;
  diff : option string;
  parent : json;
}.

(** The fields of a [Repository] the service reads. *)
Record Repository := mkRepository {
  repo_pk : Z;
  tool_name : string;
  extra_data : gmap string string;
}.

Record HttpResponse := mkResponse {
  status_code : Z;
  content : string;
}.

(** ** The world the service acts on *)

Record world := mkWorld {
  (** [self.account.username] *)
  account_username : string;
  (** [self.account.data] *)
  account_data : gmap string string;
  (** the account data as last written by [self.account.save()] *)
  account_saved : gmap string string;
  (** the URLs requested through [self.client.http_get], oldest first *)
  http_log : list string;
  (** the arguments of the calls of [close_all_review_requests] *)
  closed_log : list (gmap (option Z) (list string));
  (** the messages passed to [logging.error] *)
  error_log : list string;
}.

(** Computations that read and change the world and may raise. *)
Definition M (A : Type) : Type := world -> result A * world.

Definition ret {A} (a : A) : M A := fun w => (inr a, w).
Definition raise {A} (e : exn) : M A := fun w => (inl e, w).
Definition lift {A} (r : result A) : M A := fun w => (r, w).
Definition bind {A B} (m : M A) (k : A -> M B) : M B :=
  fun w => match m w with
           | (inr a, w') => k a w'
           | (inl e, w') => (inl e, w')
           end.
(** [try: m except ...: h e]; a handler re-raises what it does not catch. *)
Definition try_except {A} (m : M A) (h : exn -> M A) : M A :=
  fun w => match m w with
           | (inl e, w') => h e w'
           | r => r
           end.
Definition get_world : M world := fun w => (inr w, w).
Definition modify (f : world -> world) : M unit := fun w => (inr tt, f w).

Notation "x <- m ;; k" := (bind m (fun x => k))
  (at level 100, m at next level, right associativity).
Notation "m ;;; k" := (bind m (fun _ => k))
  (at level 100, right associativity).

Definition rbind {A B} (r : result A) (k : A -> result B) : result B :=
  match r with inr a => k a | inl e => inl e end.
Notation "x <~ r ;; k" := (rbind r (fun x => k))
  (at level 100, r at next level, right associativity).

Fixpoint mapR {A B} (f : A -> result B) (l : list A) : result (list B) :=
  match l with
  | [] => inr []
  | x :: rest => y <~ f x ;; ys <~ mapR f rest ;; inr (y :: ys)
  end.

(** The dictionary from review request IDs ([None] for none) to commits. *)
Abbreviation id_map := (gmap (option Z) (list string)).

(** ** What the module imports *)

(** A POST request: the form fields of [request.POST]. *)
Record Request := mkRequest {
  POST : gmap string string;
}.

(** The functions [bitbucket.py] calls and does not define, taken as given:
    the password codec of [reviewboard.scmtools.crypto_utils], the HTTP
    client, [json.loads], [urllib]'s [quote], the commit cache and the
    helpers of [reviewboard.hostingsvcs.hook_utils]. *)
Record Externals := mkExternals {
  encrypt_password : string -> string;
  decrypt_password : string -> string;
  (** [client.http_get(url, username, password)]: the body, or what it raises *)
  http_get : string -> string -> string -> result string;
  (** [json.loads]; [None] stands for [ValueError] *)
  json_loads : string -> option json;
  quote : string -> string;
  (** [six.text_type] on a value that is not text *)
  text_type : json -> string;
  (** what [account.save()] raises on the given data, if it fails *)
  db_write : gmap string string -> option exn;
  get_commit_cache_key : Repository -> string -> string;
  cache_get : string -> option Commit;
  (** the [parent] and [diff] of a [Commit] built without them *)
  Commit_default_parent : json;
  Commit_default_diff : option string;
  get_repository_for_hook :
    option string -> option string -> option string -> option string -> Repository;
  get_server_url : Request -> string;
  (** [get_review_request_id(commit_message, server_url, commit_id, repository)] *)
  get_review_request_id : json -> string -> json -> Repository -> option Z;
}.

Module Bitbucket.
Section Service.

Context (E : Externals).

(** [u'%s' % v]. *)
Definition format_s (v : json) : string :=
  match v with JStr s => s | _ => text_type E v end.

Definition DEFAULT_PLAN : string := "personal".

Definition set_data (k v : string) : M unit :=
  modify (fun w => mkWorld (account_username w) (<[k:=v]> (account_data w))
                     (account_saved w) (http_log w) (closed_log w) (error_log w)).

(** [del self.account.data[k]]. *)
Definition del_data (k : string) : M unit :=
  fun w => match account_data w !! k with
           | Some _ =>
               (inr tt, mkWorld (account_username w) (delete k (account_data w))
                          (account_saved w) (http_log w) (closed_log w) (error_log w))
           | None => (inl (KeyError k), w)
           end.

(** [self.account.save()]. *)
Definition account_save : M unit :=
  fun w => match db_write E (account_data w) with
           | Some e => (inl e, w)
           | None =>
               (inr tt, mkWorld (account_username w) (account_data w)
                          (account_data w) (http_log w) (closed_log w) (error_log w))
           end.

(** [self.client.http_get(url, username=..., password=...)]. *)
Definition client_http_get (url username password : string) : M string :=
  fun w => (http_get E url username password,
            mkWorld (account_username w) (account_data w) (account_saved w)
              (http_log w ++ [url]) (closed_log w) (error_log w)).

Definition INVALID_AUTH_MESSAGE : string :=
  "Invalid Bitbucket username or password. Make sure you are using your Bitbucket username and not e-mail address, and are using an app password if two-factor authentication is enabled.".

Definition _raise_auth_error (message : json) : exn :=
  AuthorizationError (if truthy message then format_s message else INVALID_AUTH_MESSAGE).

(** [_check_api_error] always raises; the model returns what it raises. *)
Definition _check_api_error (code : Z) (data : string) : exn :=
  let rsp := default JNull (json_loads E data) in
  let message := JStr data in
  let found :=
    has_error <~ (if truthy rsp then py_in "error" rsp else inr false) ;;
    if has_error : bool then
      error <~ py_getitem rsp "error" ;;
      has_message <~ py_in "message" error ;;
      if has_message : bool then py_getitem error "message" else inr message
    else inr message in
  match found with
  | inl e => e
  | inr message =>
      let message := if truthy message then JStr (format_s message) else message in
      if code =? 401 then _raise_auth_error message
      else if code =? 404 then
        match message with
        | JStr s =>
            if String.prefix "Repository" s
            then HostingServiceError s (Some code)
            else FileNotFoundError "" None None None
        | _ => AttributeError
        end
      else
        HostingServiceError
          (if truthy message then format_s message
           else "Unexpected HTTP " +:+ pretty code +:+ " error when talking to Bitbucket")
          (Some code)
  end.

(** [_api_get]; raw content is returned as the text of the body. *)
Definition _api_get (url : string) (raw_content : bool) : M json :=
  w <- get_world ;;
  match account_data w !! "password" with
  | None => raise (KeyError "password")
  | Some stored =>
      try_except
        (data <- client_http_get url (account_username w) (decrypt_password E stored) ;;
         if raw_content then ret (JStr data)
         else match json_loads E data with
              | Some v => ret v
              | None => raise ValueError
              end)
        (fun e => match e with
                  | HTTPError code body => raise (_check_api_error code body)
                  | _ => raise e
                  end)
  end.

Definition _build_api_url (url version : string) : string :=
  "https://bitbucket.org/api/" +:+ version +:+ "/" +:+ url.

Definition _get_repository_plan (repository : Repository) : string :=
  match extra_data repository !! "repository_plan" with
  | Some p => if str_truthy p then p else DEFAULT_PLAN
  | None => DEFAULT_PLAN
  end.

(** [extra_data[k]]. *)
Definition dict_item (d : gmap string string) (k : string) : result string :=
  match d !! k with Some v => inr v | None => inl (KeyError k) end.

Definition _get_repository_name_raw (plan : string) (extra : gmap string string)
  : result string :=
  if String.eqb plan "personal" then dict_item extra "bitbucket_repo_name"
  else if String.eqb plan "team" then dict_item extra "bitbucket_team_repo_name"
  else if String.eqb plan "other-user" then dict_item extra "bitbucket_other_user_repo_name"
  else inl (InvalidPlanError plan).

Definition _get_repository_owner_raw (plan : string) (extra : gmap string string)
  : M string :=
  if String.eqb plan "personal" then w <- get_world ;; ret (account_username w)
  else if String.eqb plan "team" then lift (dict_item extra "bitbucket_team_name")
  else if String.eqb plan "other-user"
       then lift (dict_item extra "bitbucket_other_user_username")
  else raise (InvalidPlanError plan).

Definition _get_repository_name (repository : Repository) : result string :=
  _get_repository_name_raw (_get_repository_plan repository) (extra_data repository).

Definition _get_repository_owner (repository : Repository) : M string :=
  _get_repository_owner_raw (_get_repository_plan repository) (extra_data repository).

Definition _build_repository_api_url (repository : Repository) (url version : string)
  : M string :=
  username <- _get_repository_owner repository ;;
  repo_name <- lift (_get_repository_name repository) ;;
  ret (_build_api_url ("repositories/" +:+ username +:+ "/" +:+ repo_name +:+ "/" +:+ url)
         version).

(** The [http_code] of an exception caught by
    [except HostingServiceError as e].  The subclasses raised here without a
    code carry [None]; the handler treats them as [except Exception] would. *)
Definition hosting_service_http_code (e : exn) : option (option Z) :=
  match e with
  | HostingServiceError _ code => Some code
  | AuthorizationError _ | RepositoryError _ | InvalidPlanError _ => Some None
  | _ => None
  end.

Definition code_in_401_403 (code : option Z) : bool :=
  match code with Some c => (c =? 401) || (c =? 403) | None => false end.

Definition authorize (username password : string) : M unit :=
  set_data "password" (encrypt_password E password) ;;;
  try_except
    (_api_get (_build_api_url "user" "1.0") false ;;;
     account_save)
    (fun e =>
       match hosting_service_http_code e with
       | Some code =>
           del_data "password" ;;;
           if code_in_401_403 code then raise (_raise_auth_error JNull)
           else raise e
       | None =>
           del_data "password" ;;;
           raise e
       end).

Definition is_authorized : M bool :=
  w <- get_world ;;
  ret (match account_data w !! "password" with Some _ => true | None => false end).

Definition MISSING_REVISION_DETAIL : string :=
  "The necessary revision information needed to find this file was not provided. Use RBTools 0.5.2 or newer.".

Definition _api_get_src (repository : Repository) (path revision : string)
    (base_commit_id : option string) : M json :=
  revision' <-
    (if opt_truthy base_commit_id then ret (default "" base_commit_id)
     else if String.eqb (tool_name repository) "Git" then
       raise (FileNotFoundError path (Some revision) None (Some MISSING_REVISION_DETAIL))
     else ret revision) ;;
  owner <- _get_repository_owner repository ;;
  name <- lift (_get_repository_name repository) ;;
  let url :=
    _build_api_url
      ("repositories/" +:+ quote E owner +:+ "/" +:+ quote E name +:+ "/raw/"
         +:+ quote E revision' +:+ "/" +:+ quote E path) "1.0" in
  try_except (_api_get url true)
    (fun e => match e with
              | FileNotFoundError _ _ _ _ =>
                  raise (FileNotFoundError path (Some revision') base_commit_id None)
              | _ => raise e
              end).

Definition get_file (repository : Repository) (path revision : string)
    (base_commit_id : option string) : M json :=
  try_except (_api_get_src repository path revision base_commit_id)
    (fun e => match e with
              | URLError | HTTPError _ _ =>
                  raise (FileNotFoundError path (Some revision) None None)
              | _ => raise e
              end).

Definition get_file_exists (repository : Repository) (path revision : string)
    (base_commit_id : option string) : M bool :=
  try_except
    (_api_get_src repository path revision base_commit_id ;;;
     ret true)
    (fun e => match e with
              | URLError | HTTPError _ _ | FileNotFoundError _ _ _ _ => ret false
              | _ => raise e
              end).

Definition _get_default_branch_name (repository : Repository) : M json :=
  url <- _build_repository_api_url repository "main-branch/" "1.0" ;;
  rsp <- _api_get url false ;;
  lift (py_getitem rsp "name").

(** [six.iteritems(rsp)]. *)
Definition py_iteritems (v : json) : result (list (string * json)) :=
  match v with JObj items => inr items | _ => inl AttributeError end.

Definition branch_of_item (default_branch_name : json) (item : string * json)
  : result Branch :=
  raw_node <~ py_getitem item.2 "raw_node" ;;
  inr (mkBranch item.1 raw_node (json_is_str item.1 default_branch_name)).

Definition get_branches (repository : Repository) : M (list Branch) :=
  default_branch_name <- _get_default_branch_name repository ;;
  url <- _build_repository_api_url repository "branches/" "1.0" ;;
  rsp <- _api_get url false ;;
  items <- lift (py_iteritems rsp) ;;
  lift (mapR (branch_of_item default_branch_name) items).

Definition _parse_timestamp (timestamp : json) : result json :=
  match timestamp with
  | JStr s => inr (JStr (replace_space_T s))
  | _ => inl AttributeError
  end.

(** [reversed(v)]. *)
Definition py_reversed (v : json) : result (list json) :=
  match v with
  | JArr l => inr (rev l)
  | JStr s => inr (rev (map (fun c => JStr (String c "")) (list_ascii_of_string s)))
  | _ => inl TypeError
  end.

(** The body of the loop of [get_commits]. *)
Definition commit_of_changeset (changeset : json) : result Commit :=
  author <~ py_getitem changeset "author" ;;
  raw_node <~ py_getitem changeset "raw_node" ;;
  utctimestamp <~ py_getitem changeset "utctimestamp" ;;
  parsed <~ _parse_timestamp utctimestamp ;;
  msg <~ py_getitem changeset "message" ;;
  let commit := mkCommit author raw_node parsed msg (Commit_default_diff E)
                  (Commit_default_parent E) in
  parents <~ py_getitem changeset "parents" ;;
  if truthy parents then
    first_parent <~ py_first parents ;;
    inr (mkCommit (author_name commit) (commit_id commit) (date commit)
           (message commit) (diff commit) first_parent)
  else inr commit.

Definition get_commits (repository : Repository) (branch start : option string)
  : M (list Commit) :=
  url <- _build_repository_api_url repository "changesets/?limit=20" "1.0" ;;
  let start := py_or start branch in
  let url := if opt_truthy start then url +:+ "&start=" +:+ default "" start else url in
  rsp <- _api_get url false ;;
  changesets <- lift (py_getitem rsp "changesets") ;;
  items <- lift (py_reversed changesets) ;;
  lift (mapR commit_of_changeset items).

Definition get_change (repository : Repository) (revision : string) : M Commit :=
  commit <-
    match cache_get E (get_commit_cache_key E repository revision) with
    | Some commit => ret commit
    | None =>
        commits <- get_commits repository (Some revision) None ;;
        match commits with
        | commit :: _ => ret commit
        | [] => raise IndexError
        end
    end ;;
  url <- _build_repository_api_url repository ("diff/" +:+ revision) "2.0" ;;
  fetched <- _api_get url true ;;
  diff <- match fetched with
          | JStr d => ret (if endswith_newline d then d else d +:+ newline)
          | _ => raise AttributeError
          end ;;
  ret (mkCommit (author_name commit) (commit_id commit) (date commit)
         (message commit) (Some diff) (parent commit)).

(** *** The post-receive webhook *)


(** [d[k].append(x)] on a [defaultdict(list)]. *)
Definition append_to (k : option Z) (x : string) (d : id_map) : id_map :=
  <[k := default [] (d !! k) ++ [x]]> d.

(** The body of the loop of [_get_review_request_id_to_commits_map]. *)
Definition add_commit (server_url : string) (repository : Repository)
    (d : id_map) (commit : json) : result id_map :=
  commit_hash <~ py_get commit "raw_node" JNull ;;
  commit_message <~ py_get commit "message" JNull ;;
  branch_name <~ py_get commit "branch" JNull ;;
  if truthy branch_name then
    let review_request_id :=
      get_review_request_id E commit_message server_url commit_hash repository in
    short <~ py_slice_to 7 commit_hash ;;
    inr (append_to review_request_id
           (format_s branch_name +:+ " (" +:+ format_s short +:+ ")") d)
  else inr d.

Fixpoint foldR {A B} (f : A -> B -> result A) (a : A) (l : list B) : result A :=
  match l with
  | [] => inr a
  | x :: rest => a' <~ f a x ;; foldR f a' rest
  end.

Definition _get_review_request_id_to_commits_map (payload : json)
    (server_url : string) (repository : Repository) : result id_map :=
  commits <~ py_get payload "commits" (JArr []) ;;
  items <~ py_iter commits ;;
  foldR (add_commit server_url repository) ∅ items.

(** [close_all_review_requests]: recorded by its first argument. *)
Definition close_all_review_requests (d : id_map) : M unit :=
  modify (fun w => mkWorld (account_username w) (account_data w) (account_saved w)
                     (http_log w) (closed_log w ++ [d]) (error_log w)).

Definition logging_error (msg : string) : M unit :=
  modify (fun w => mkWorld (account_username w) (account_data w) (account_saved w)
                     (http_log w) (closed_log w) (error_log w ++ [msg])).

Definition HttpResponseOk : HttpResponse := mkResponse 200 "".
Definition HttpResponseBadRequest (body : string) : HttpResponse := mkResponse 400 body.

Definition is_empty_map (d : id_map) : bool := bool_decide (d = ∅).

Definition post_receive_hook_close_submitted (request : Request)
    (local_site_name repository_id hosting_service_id hooks_uuid : option string)
  : M HttpResponse :=
  let repository :=
    get_repository_for_hook E repository_id hosting_service_id local_site_name
      hooks_uuid in
  match POST request !! "payload" with
  | None => ret (HttpResponseBadRequest "Missing payload")
  | Some text =>
      match json_loads E text with
      | None =>
          logging_error "The payload is not in JSON format" ;;;
          ret (HttpResponseBadRequest "Invalid payload format")
      | Some payload =>
          let server_url := get_server_url E request in
          review_request_id_to_commits <-
            lift (_get_review_request_id_to_commits_map payload server_url repository) ;;
          (if is_empty_map review_request_id_to_commits then ret tt
           else close_all_review_requests review_request_id_to_commits) ;;;
          ret HttpResponseOk
      end
  end.

(** *** Shapes of the data the service is sent

    The webhook payload and the API responses as Bitbucket produces them,
    and the values the statements below read off them. *)

(** The value under [k] of a dictionary ([None] when absent). *)
Definition field (v : json) (k : string) : json :=
  match v with
  | JObj items => default JNull (assoc k items)
  | _ => JNull
  end.

Definition has_key (v : json) (k : string) : bool :=
  match v with
  | JObj items => match assoc k items with Some _ => true | None => false end
  | _ => false
  end.

Definition is_dict (v : json) : bool :=
  match v with JObj _ => true | _ => false end.

Definition is_text (v : json) : bool :=
  match v with JStr _ => true | _ => false end.

Definition is_list (v : json) : bool :=
  match v with JArr _ => true | _ => false end.

(** A commit of a payload has a branch value when ['branch'] is present and
    not empty. *)
Definition has_branch (commit : json) : bool := truthy (field commit "branch").

(** A commit of a payload: a dictionary whose ['raw_node'] is text whenever
    it has a branch value. *)
Definition payload_commit_ok (commit : json) : bool :=
  is_dict commit && (negb (has_branch commit) || is_text (field commit "raw_node")).

(** The first seven characters of the commit hash. *)
Definition short_hash (commit : json) : string :=
  match field commit "raw_node" with
  | JStr h => String.substring 0 7 h
  | _ => ""
  end.

(** ['<branch> (<short hash>)']. *)
Definition commit_entry (commit : json) : string :=
  format_s (field commit "branch") +:+ " (" +:+ short_hash commit +:+ ")".

(** The review request ID extracted from the commit's message. *)
Definition commit_review_request_id (server_url : string) (repository : Repository)
    (commit : json) : option Z :=
  get_review_request_id E (field commit "message") server_url
    (field commit "raw_node") repository.

(** The entries of the commits with a branch value whose message names the
    review request [k], in payload order. *)
Definition entries_for (server_url : string) (repository : Repository)
    (k : option Z) (commits : list json) : list string :=
  map commit_entry
    (List.filter
       (fun c => has_branch c
                 && bool_decide (commit_review_request_id server_url repository c = k))
       commits).

(** A payload as the hook is sent it: a dictionary whose ['commits'], when
    present, is a list of commits. *)
Definition payload_commits (payload : json) : option (list json) :=
  match payload with
  | JObj items =>
      match default (JArr []) (assoc "commits" items) with
      | JArr commits => if forallb payload_commit_ok commits then Some commits else None
      | _ => None
      end
  | _ => None
  end.

(** A changeset of the changesets API: a dictionary with the five fields
    read, a text timestamp and a list of parents. *)
Definition changeset_ok (changeset : json) : bool :=
  has_key changeset "author" && has_key changeset "raw_node"
  && is_text (field changeset "utctimestamp") && has_key changeset "message"
  && is_list (field changeset "parents").

(** The [Commit] the changeset stands for. *)
Definition changeset_commit (changeset : json) : Commit :=
  mkCommit (field changeset "author") (field changeset "raw_node")
    (match field changeset "utctimestamp" with
     | JStr t => JStr (replace_space_T t)
     | other => other
     end)
    (field changeset "message")
    (Commit_default_diff E)
    (match field changeset "parents" with
     | JArr (first_parent :: _) => first_parent
     | _ => Commit_default_parent E
     end).

(** An item of the branches API: a name and a dictionary with a
    ['raw_node']. *)
Definition branch_item_ok (item : string * json) : bool := has_key item.2 "raw_node".

(** The world after one more request through the HTTP client. *)
Definition requested (url : string) (w : world) : world :=
  mkWorld (account_username w) (account_data w) (account_saved w)
    (http_log w ++ [url]) (closed_log w) (error_log w).

(** The URL of a resource of a repository. *)
Definition repository_url (owner name rest version : string) : string :=
  "https://bitbucket.org/api/" +:+ version +:+ "/repositories/" +:+ owner +:+ "/"
    +:+ name +:+ "/" +:+ rest.

(** What [_api_get(url, raw_content)] returns or raises for an account
    with the given username and stored password. *)
Definition api_response (url : string) (raw_content : bool) (username stored : string)
  : result json :=
  match http_get E url username (decrypt_password E stored) with
  | inr data =>
      if raw_content then inr (JStr data)
      else match json_loads E data with
           | Some v => inr v
           | None => inl ValueError
           end
  | inl (HTTPError code body) => inl (_check_api_error code body)
  | inl e => inl e
  end.

(** A [HostingServiceError] with HTTP code 401 or 403. *)
Definition is_auth_failure (e : exn) : bool :=
  match e with
  | HostingServiceError _ (Some code) => (code =? 401) || (code =? 403)
  | _ => false
  end.

(** The URL of the test request of [authorize]. *)
Definition USER_URL : string := "https://bitbucket.org/api/1.0/user".

(** The exceptions [get_file_exists] answers [False] to: [URLError],
    [HTTPError] and [FileNotFoundError]. *)
Definition means_missing (e : exn) : bool :=
  match e with
  | URLError | HTTPError _ _ | FileNotFoundError _ _ _ _ => true
  | _ => false
  end.

(** The URL [get_commits] requests: the changesets of the repository,
    twenty at most, from the given start when there is one. *)
Definition changesets_url (owner name : string) (from : option string) : string :=
  let base := repository_url owner name "changesets/?limit=20" "1.0" in
  match from with
  | Some s => if str_truthy s then base +:+ "&start=" +:+ s else base
  | None => base
  end.

(** A branch stands for an item of the branches API, given the default
    branch name. *)
Definition branch_matches (default_branch_name : json) (item : string * json)
    (b : Branch) : Prop :=
  branch_id b = item.1
  /\ branch_commit b = field item.2 "raw_node"
  /\ (branch_default b = true <-> default_branch_name = JStr item.1).

(** The diff of a change: the fetched content, closed by a newline. *)
Definition closed_diff (fetched : string) : string :=
  if endswith_newline fetched then fetched else fetched +:+ newline.

(** The list under a key after more entries were appended to it. *)
Definition extend (o : option (list string)) (l : list string) : option (list string) :=
  match l with
  | [] => o
  | _ => Some (default [] o ++ l)
  end.

(** The world after [close_all_review_requests(d, ...)]. *)
Definition closing (d : id_map) (w : world) : world :=
  mkWorld (account_username w) (account_data w) (account_saved w)
    (http_log w) (closed_log w ++ [d]) (error_log w).

(** The world after [logging.error(msg)]. *)
Definition logged (msg : string) (w : world) : world :=
  mkWorld (account_username w) (account_data w) (account_saved w)
    (http_log w) (closed_log w) (error_log w ++ [msg]).

End Service.

(** *** Checking a repository *)

Section Checking.

Context (E : Externals).
(** The message of an [InvalidPlanError] for a plan. *)
Context (invalid_plan_message : string -> string).

(** [six.text_type(e)] for a [HostingServiceError] or one of its
    subclasses: the message it was raised with. *)
Definition exn_text (e : exn) : string :=
  match e with
  | HostingServiceError msg _ | AuthorizationError msg | RepositoryError msg => msg
  | InvalidPlanError plan => invalid_plan_message plan
  | _ => ""
  end.

Definition _api_get_repository (username repo_name : string) : M json :=
  _api_get E (_build_api_url ("repositories/" +:+ username +:+ "/" +:+ repo_name) "1.0")
    false.

Definition PATH_IN_NAME_MESSAGE : string :=
  "Please specify just the name of the repository, not a path.".

Definition GIT_IN_NAME_MESSAGE : string :=
  "Please specify just the name of the repository without "
    +:+ String "034" (".git" +:+ String "034" ".").

Definition REPOSITORY_NOT_FOUND_MESSAGE : string :=
  "A repository with this name was not found.".

(** [check_repository(plan, **kwargs)]. *)
Definition check_repository (plan : string) (kwargs : gmap string string) : M unit :=
  repo_name <- lift (_get_repository_name_raw plan kwargs) ;;
  if is_substring "/" repo_name then raise (RepositoryError PATH_IN_NAME_MESSAGE)
  else if is_substring ".git" repo_name then raise (RepositoryError GIT_IN_NAME_MESSAGE)
  else
    try_except
      (owner <- _get_repository_owner_raw plan kwargs ;;
       name <- lift (_get_repository_name_raw plan kwargs) ;;
       _api_get_repository owner name ;;;
       ret tt)
      (fun e =>
         match hosting_service_http_code e with
         | Some _ =>
             if String.eqb (exn_text e) "Resource not found"
             then raise (RepositoryError REPOSITORY_NOT_FOUND_MESSAGE)
             else raise e
         | None => raise e
         end).

(** What [check_repository] raises when the request for the repository
    raised [e]. *)
Definition repository_check_error (e : exn) : exn :=
  match e with
  | HostingServiceError msg _ | AuthorizationError msg | RepositoryError msg =>
      if String.eqb msg "Resource not found"
      then RepositoryError REPOSITORY_NOT_FOUND_MESSAGE else e
  | InvalidPlanError plan =>
      if String.eqb (invalid_plan_message plan) "Resource not found"
      then RepositoryError REPOSITORY_NOT_FOUND_MESSAGE else e
  | _ => e
  end.

End Checking.

(** The exception [_check_api_error] raises for an HTTP status code and the
    message found in the body. *)
Definition api_error_for (code : Z) (message : string) : exn :=
  if code =? 401 then
    AuthorizationError (if str_truthy message then message else INVALID_AUTH_MESSAGE)
  else if code =? 404 then
    if String.prefix "Repository" message
    then HostingServiceError message (Some code)
    else FileNotFoundError "" None None None
  else
    HostingServiceError
      (if str_truthy message then message
       else "Unexpected HTTP " +:+ pretty code +:+ " error when talking to Bitbucket")
      (Some code).

(** The three plans. *)
Definition known_plan (plan : string) : bool :=
  String.eqb plan "personal" || String.eqb plan "team" || String.eqb plan "other-user".

Definition is_http_error (e : exn) : bool :=
  match e with HTTPError _ _ => true | _ => false end.

Definition is_url_error (e : exn) : bool :=
  match e with URLError | HTTPError _ _ => true | _ => false end.

(** The URL [_api_get_src] requests for a file at a revision. *)
Definition src_url (E : Externals) (owner name revision path : string) : string :=
  "https://bitbucket.org/api/1.0/repositories/" +:+ quote E owner +:+ "/"
    +:+ quote E name +:+ "/raw/" +:+ quote E revision +:+ "/" +:+ quote E path.

(** The revision a file is fetched at: the base commit ID when given. *)
Definition src_revision (revision : string) (base_commit_id : option string) : string :=
  match base_commit_id with
  | Some b => if str_truthy b then b else revision
  | None => revision
  end.

Fixpoint no_blank (s : string) : bool :=
  match s with
  | "" => true
  | String c rest => negb (Ascii.eqb c " ") && no_blank rest
  end.

End Bitbucket.

(** ** The review request datagrid *)

Module Grids.

(** The part of [reviewboard.accounts.models.Profile] the grid reads and
    writes. *)
Record Profile := mkProfile {
  show_closed : bool;
}.

(** A [filter(...)] applied to the queryset. *)
Inductive Filter : Type :=
| FilterStatus (status : string)
| FilterLocalSite (local_site : option Z).

(** The state of a [ReviewRequestDataGrid] that [load_extra_state] touches:
    [self.show_closed], [self.queryset] as the chain of filters applied so
    far, [self.local_site] and [self.request.GET]. *)
Record DataGrid := mkDataGrid {
  grid_show_closed : bool;
  queryset : list Filter;
  local_site : option Z;
  GET : gmap string string;
}.

Definition queryset_filter (qs : list Filter) (f : Filter) : list Filter := qs ++ [f].

Definition int_of_bool (b : bool) : Z := if b then 1 else 0.

Section LoadExtraState.

(** Python's [int] on text; [None] stands for [ValueError]. *)
Context (parse_int : string -> option Z).

(** [int(self.request.GET.get('show-closed', self.show_closed))]. *)
Definition int_of_show_closed_param (get : gmap string string) (current : bool)
  : option Z :=
  match get !! "show-closed" with
  | Some text => parse_int text
  | None => Some (int_of_bool current)
  end.

(** Returns the value of the method, the grid and the profile afterwards. *)
Definition load_extra_state (self : DataGrid) (profile : option Profile)
  : bool * DataGrid * option Profile :=
  let show1 :=
    match profile with
    | Some p => show_closed p
    | None => grid_show_closed self
    end in
  let show2 :=
    match int_of_show_closed_param (GET self) show1 with
    | Some n => negb (n =? 0)
    | None => show1
    end in
  let qs1 :=
    if negb show2 then queryset_filter (queryset self) (FilterStatus "P")
    else queryset self in
  let qs2 := queryset_filter qs1 (FilterLocalSite (local_site self)) in
  let self' := mkDataGrid show2 qs2 (local_site self) (GET self) in
  match profile with
  | Some p =>
      if negb (Bool.eqb show2 (show_closed p))
      then (true, self', Some (mkProfile show2))
      else (false, self', profile)
  | None => (false, self', profile)
  end.

(** The show_closed setting in effect: the profile's value (the grid's own
    when there is no profile), overridden by a ['show-closed'] URL parameter
    that parses as an integer. *)
Definition effective_show_closed (self : DataGrid) (profile : option Profile) : bool :=
  let base := match profile with
              | Some p => show_closed p
              | None => grid_show_closed self
              end in
  match GET self !! "show-closed" with
  | Some text =>
      match parse_int text with
      | Some n => negb (n =? 0)
      | None => base
      end
  | None => base
  end.

End LoadExtraState.

(** *** The dashboard *)

(** The part of [reviewboard.reviews.models.Group] read here. *)
Record Group := mkGroup {
  group_pk : Z;
  group_name : string;
  incoming_request_count : Z;
}.

(** The querysets of review requests the dashboard chooses from, each with
    the arguments of the manager call that builds it ([status] is the third
    positional argument of [from_user], when one is passed). *)
Inductive ReviewRequestQuery : Type :=
| from_user (user_or_username user : Z) (status : option (option string))
    (site : option Z)
| to_user_directly (user_or_username user : Z) (site : option Z)
| to_group (name : string) (site : option Z) (user : Z)
| to_user_groups (username user : Z) (site : option Z)
| starred_public (profile user : Z) (site : option Z) (status : option string)
| to_user (user_or_username user : Z) (site : option Z).

(** The state of a [DashboardDataGrid] that [load_extra_state] reads and
    writes; [dash_queryset] is [None] until the method chooses one, and
    [dash_new_profiles] lists the users [Profile.objects.get_or_create]
    created a profile for. *)
Record Dashboard := mkDashboard {
  dash_user : Z;
  dash_local_site : option Z;
  dash_default_view : string;
  dash_GET : gmap string string;
  dash_queryset : option ReviewRequestQuery;
  dash_title : string;
  dash_new_profiles : list Z;
}.

(** What a view method does: it raises [Http404] or returns. *)
Inductive outcome (A : Type) : Type :=
| Http404
| Returned (a : A).
Arguments Http404 {A}.
Arguments Returned {A} a.

Section DashboardState.

(** [Group.objects.get(name=..., local_site=...)]; [None] stands for
    [Group.DoesNotExist]. *)
Context (group_get : string -> option Z -> option Group).
(** [group.is_accessible_by(user)]. *)
Context (is_accessible_by : Group -> Z -> bool).
(** [Profile.objects.get_or_create(user=...)]: the profile and whether it
    is new. *)
Context (profile_get_or_create : Z -> Z * bool).

Definition with_queryset (self : Dashboard) (q : ReviewRequestQuery) (title : string)
  : Dashboard :=
  mkDashboard (dash_user self) (dash_local_site self) (dash_default_view self)
    (dash_GET self) (Some q) title (dash_new_profiles self).

(** [DashboardDataGrid.load_extra_state]: the value returned and the grid
    afterwards. *)
Definition dashboard_load_extra_state (self : Dashboard) (profile : option Profile)
  : outcome (bool * Dashboard) :=
  let group := default "" (dash_GET self !! "group") in
  let view := default (dash_default_view self) (dash_GET self !! "view") in
  let user := dash_user self in
  let site := dash_local_site self in
  if String.eqb view "outgoing" then
    Returned (false, with_queryset self (from_user user user None site)
                       "All Outgoing Review Requests")
  else if String.eqb view "mine" then
    Returned (false, with_queryset self (from_user user user (Some None) site)
                       "All My Review Requests")
  else if String.eqb view "to-me" then
    Returned (false, with_queryset self (to_user_directly user user site)
                       "Incoming Review Requests to Me")
  else if String.eqb view "to-group" then
    if negb (String.eqb group "") then
      match group_get group site with
      | Some g =>
          if negb (is_accessible_by g user) then Http404
          else Returned (false, with_queryset self (to_group group site user)
                                  ("Incoming Review Requests to " +:+ group))
      | None => Http404
      end
    else
      Returned (false, with_queryset self (to_user_groups user user site)
                         "All Incoming Review Requests to My Groups")
  else if String.eqb view "starred" then
    let '(p, is_new) := profile_get_or_create user in
    let self' :=
      mkDashboard (dash_user self) (dash_local_site self) (dash_default_view self)
        (dash_GET self) (dash_queryset self) (dash_title self)
        (if is_new then dash_new_profiles self ++ [user] else dash_new_profiles self) in
    Returned (false, with_queryset self' (starred_public p user site None)
                       "Starred Review Requests")
  else if String.eqb view "incoming" then
    Returned (false, with_queryset self (to_user user user site)
                       "All Incoming Review Requests")
  else Http404.

(** The views of the dashboard. *)
Definition dashboard_views : list string :=
  ["outgoing"; "mine"; "to-me"; "to-group"; "starred"; "incoming"].

Definition is_dashboard_view (view : string) : bool :=
  existsb (String.eqb view) dashboard_views.

(** The group named in the request exists on the site and the user may see
    it. *)
Definition group_visible (self : Dashboard) (name : string) : bool :=
  match group_get name (dash_local_site self) with
  | Some g => is_accessible_by g (dash_user self)
  | None => false
  end.

End DashboardState.

(** *** The sidebar counts *)

(** The counters of a [LocalSiteProfile]. *)
Record LocalSiteProfile := mkLocalSiteProfile {
  pending_outgoing_request_count : Z;
  total_incoming_request_count : Z;
  direct_incoming_request_count : Z;
  starred_public_request_count : Z;
  total_outgoing_request_count : Z;
}.

(** The dictionary [get_sidebar_counts] returns, a field per key
    (['to-me'] is [to_me]); the two [SortedDict]s keep their items in
    insertion order. *)
Record SidebarCounts := mkSidebarCounts {
  outgoing : Z;
  incoming : Z;
  to_me : Z;
  starred : Z;
  mine : Z;
  groups : list (string * Z);
  starred_groups : list (string * Z);
}.

(** [d[k] = v] on a [SortedDict]: a new key goes last, a known key keeps
    its place. *)
Fixpoint sorted_dict_set (k : string) (v : Z) (d : list (string * Z))
  : list (string * Z) :=
  match d with
  | [] => [(k, v)]
  | (k', v') :: rest =>
      if String.eqb k k' then (k, v) :: rest
      else (k', v') :: sorted_dict_set k v rest
  end.

Fixpoint sorted_dict_get (k : string) (d : list (string * Z)) : option Z :=
  match d with
  | [] => None
  | (k', v) :: rest => if String.eqb k k' then Some v else sorted_dict_get k rest
  end.

(** [for group in rows: d[group.name] = group.incoming_request_count]. *)
Definition fill_group_counts (rows : list Group) (d : list (string * Z))
  : list (string * Z) :=
  fold_left (fun d g => sorted_dict_set (group_name g) (incoming_request_count g) d)
    rows d.

Section SidebarCountsOf.

Context (profile_get_or_create : Z -> Z * bool).
(** [LocalSiteProfile.objects.get_or_create(local_site, user, profile)]. *)
Context (site_profile_get_or_create : option Z -> Z -> Z -> LocalSiteProfile * bool).
(** [Group.objects.filter(users=user, local_site=...).order_by('name')]. *)
Context (groups_of_user : Z -> option Z -> list Group).
(** [Group.objects.filter(starred_by=profile, local_site=...).order_by('name')]. *)
Context (groups_starred_by : Z -> option Z -> list Group).

(** Returns the counts and the site profiles saved on the way. *)
Definition get_sidebar_counts (user : Z) (site : option Z)
  : SidebarCounts * list LocalSiteProfile :=
  let '(profile, _) := profile_get_or_create user in
  let '(site_profile, is_new) := site_profile_get_or_create site user profile in
  let saved := if is_new then [site_profile] else [] in
  let counts :=
    mkSidebarCounts
      (pending_outgoing_request_count site_profile)
      (total_incoming_request_count site_profile)
      (direct_incoming_request_count site_profile)
      (starred_public_request_count site_profile)
      (total_outgoing_request_count site_profile)
      (fill_group_counts (groups_of_user user site) [])
      (fill_group_counts (groups_starred_by profile site) []) in
  (counts, saved).

End SidebarCountsOf.

(** The count of the last row with the given name. *)
Fixpoint last_count (k : string) (rows : list Group) : option Z :=
  match rows with
  | [] => None
  | g :: rest =>
      match last_count k rest with
      | Some v => Some v
      | None => if String.eqb k (group_name g) then Some (incoming_request_count g)
                else None
      end
  end.

End Grids.

(** ** Sample data *)

Module Samples.

(** A server that answers every request with an empty JSON object, a
    [json.loads] that knows three texts, and a review request ID found in
    messages that are the text ["Reviewed at /r/42/"]. *)
Definition sample_loads (text : string) : option json :=
  if String.eqb text "[]" then Some (JArr [])
  else if String.eqb text "{}" then Some (JObj [])
  else if String.eqb text "push" then
    Some (JObj [("commits",
                 JArr [JObj [("raw_node", JStr "0123456789abcdef");
                             ("message", JStr "Reviewed at /r/42/");
                             ("branch", JStr "master")];
                       JObj [("raw_node", JStr "fedcba9876543210");
                             ("message", JStr "Tidy up")]])])
  else None.

Definition sample_review_request_id (msg : json) (server_url : string) (hash : json)
    (repository : Repository) : option Z :=
  if json_is_str "Reviewed at /r/42/" msg then Some 42 else None.

Definition sample_repository : Repository :=
  mkRepository 1 "Git" {["bitbucket_repo_name" := "rb"]}.

Definition sample_externals : Externals :=
  mkExternals (fun p => "enc:" +:+ p) (fun p => String.substring 4 (String.length p) p)
    (fun _ _ _ => inr "{}") sample_loads (fun s => s) (fun _ => "?") (fun _ => None)
    (fun _ rev => "commit:" +:+ rev) (fun _ => None) (JStr "") None
    (fun _ _ _ _ => sample_repository) (fun _ => "https://reviews.example.com/")
    sample_review_request_id.

(** The same, with a network that cannot be reached. *)
Definition offline_externals : Externals :=
  mkExternals (fun p => "enc:" +:+ p) (fun p => String.substring 4 (String.length p) p)
    (fun _ _ _ => inl URLError) sample_loads (fun s => s) (fun _ => "?") (fun _ => None)
    (fun _ rev => "commit:" +:+ rev) (fun _ => None) (JStr "") None
    (fun _ _ _ _ => sample_repository) (fun _ => "https://reviews.example.com/")
    sample_review_request_id.

(** A server for the repository [alice/rb]: two changesets, the default
    branch [master], two branches and the diff of the change [abc]. *)
Definition api_server (url username password : string) : result string :=
  if String.eqb url "https://bitbucket.org/api/1.0/repositories/alice/rb/changesets/?limit=20"
  then inr "changesets"
  else if String.eqb url "https://bitbucket.org/api/1.0/repositories/alice/rb/main-branch/"
  then inr "main-branch"
  else if String.eqb url "https://bitbucket.org/api/1.0/repositories/alice/rb/branches/"
  then inr "branches"
  else if String.eqb url "https://bitbucket.org/api/2.0/repositories/alice/rb/diff/abc"
  then inr "diff --git a/x b/x"
  else inl (HTTPError 404 "").

Definition first_changeset : json :=
  JObj [("author", JStr "alice"); ("raw_node", JStr "1111111111");
        ("utctimestamp", JStr "2014-01-01 10:00:00+00:00");
        ("message", JStr "First"); ("parents", JArr [])].

Definition second_changeset : json :=
  JObj [("author", JStr "bob"); ("raw_node", JStr "2222222222");
        ("utctimestamp", JStr "2014-01-02 11:30:00+00:00");
        ("message", JStr "Second"); ("parents", JArr [JStr "1111111111"])].

Definition api_loads (text : string) : option json :=
  if String.eqb text "changesets"
  then Some (JObj [("changesets", JArr [first_changeset; second_changeset])])
  else if String.eqb text "main-branch" then Some (JObj [("name", JStr "master")])
  else if String.eqb text "branches"
  then Some (JObj [("master", JObj [("raw_node", JStr "2222222222")]);
                   ("stable", JObj [("raw_node", JStr "1111111111")])])
  else None.

Definition cached_commit : Commit :=
  mkCommit (JStr "bob") (JStr "abc") (JStr "2014-01-02T11:30:00+00:00") (JStr "Second")
    None (JStr "1111111111").

Definition api_externals : Externals :=
  mkExternals (fun p => "enc:" +:+ p) (fun p => String.substring 4 (String.length p) p)
    api_server api_loads (fun s => s) (fun _ => "?") (fun _ => None)
    (fun _ rev => "commit:" +:+ rev)
    (fun key => if String.eqb key "commit:abc" then Some cached_commit else None)
    (JStr "") None
    (fun _ _ _ _ => sample_repository) (fun _ => "https://reviews.example.com/")
    sample_review_request_id.

Definition authorized_world : world :=
  mkWorld "alice" {["password" := "enc:secret"]} {["password" := "enc:secret"]} [] [] [].

(** A server that refuses the credentials, with a JSON error body. *)
Definition denied_loads (text : string) : option json :=
  if String.eqb text "denied"
  then Some (JObj [("error", JObj [("message", JStr "Bad credentials")])])
  else None.

Definition denied_externals : Externals :=
  mkExternals (fun p => "enc:" +:+ p) (fun p => String.substring 4 (String.length p) p)
    (fun _ _ _ => inl (HTTPError 401 "denied")) denied_loads (fun s => s)
    (fun _ => "?") (fun _ => None)
    (fun _ rev => "commit:" +:+ rev) (fun _ => None) (JStr "") None
    (fun _ _ _ _ => sample_repository) (fun _ => "https://reviews.example.com/")
    sample_review_request_id.

Definition sample_plan_message (plan : string) : string :=
  plan +:+ " is not a valid plan for this hosting service".

(** A Mercurial repository of a team, and a repository with a plan that
    does not exist. *)
Definition team_repository : Repository :=
  mkRepository 2 "Mercurial"
    {["repository_plan" := "team"; "bitbucket_team_name" := "core";
      "bitbucket_team_repo_name" := "rb"]}.

Definition odd_repository : Repository :=
  mkRepository 3 "Git" {["repository_plan" := "enterprise"]}.

(** A push of two commits, neither with a branch value: the first has no
    ['branch'] at all, the second an empty one. *)
Definition branchless_push : json :=
  JObj [("commits",
         JArr [JObj [("raw_node", JStr "fedcba9876543210");
                     ("message", JStr "Reviewed at /r/42/")];
               JObj [("raw_node", JStr "0123456789abcdef");
                     ("message", JStr "Tidy up");
                     ("branch", JStr "")]])].

Definition branchless_loads (text : string) : option json :=
  if String.eqb text "quiet push" then Some branchless_push else None.

Definition branchless_externals : Externals :=
  mkExternals (fun p => "enc:" +:+ p) (fun p => String.substring 4 (String.length p) p)
    (fun _ _ _ => inr "{}") branchless_loads (fun s => s) (fun _ => "?") (fun _ => None)
    (fun _ rev => "commit:" +:+ rev) (fun _ => None) (JStr "") None
    (fun _ _ _ _ => sample_repository) (fun _ => "https://reviews.example.com/")
    sample_review_request_id.

Definition sample_world : world := mkWorld "alice" ∅ ∅ [] [] [].

Definition sample_request (text : string) : Request :=
  mkRequest {["payload" := text]}.

End Samples.

(** * Properties *)

Ltac run_M :=
  unfold bind, ret, raise, lift, try_except, get_world, modify in *; simpl in *.

Section Running.
Context {A B : Type}.

Lemma bind_ok (m : M A) (k : A -> M B) (w w' : world) (a : A) :
  m w = (inr a, w') -> bind m k w = k a w'.
Proof. intros H. unfold bind. rewrite H. reflexivity. Qed.

Lemma bind_raises (m : M A) (k : A -> M B) (w w' : world) (e : exn) :
  m w = (inl e, w') -> bind m k w = (inl e, w').
Proof. intros H. unfold bind. rewrite H. reflexivity. Qed.

Lemma try_ok (m : M A) (h : exn -> M A) (w w' : world) (a : A) :
  m w = (inr a, w') -> try_except m h w = (inr a, w').
Proof. intros H. unfold try_except. rewrite H. reflexivity. Qed.

Lemma try_raises (m : M A) (h : exn -> M A) (w w' : world) (e : exn) :
  m w = (inl e, w') -> try_except m h w = h e w'.
Proof. intros H. unfold try_except. rewrite H. reflexivity. Qed.

End Running.

Module BitbucketPlans.
Import Bitbucket.



End BitbucketPlans.

Module GridProperties.
Import Grids.

Section LoadExtraState.
Context (parse_int : string -> option Z).

(** C8. [load_extra_state] filters the queryset to status ['P'] exactly when
    the effective show_closed setting is false, then always filters it to
    the grid's local site; it returns [True] exactly when a profile is
    present and its [show_closed] differs from the effective setting, and
    then stores the effective setting in the profile. *)
Theorem load_extra_state_spec (self : DataGrid) (profile : option Profile) :
  let eff := effective_show_closed parse_int self profile in
  let '(changed, self', profile') := load_extra_state parse_int self profile in
  queryset self'
  = queryset self ++ (if eff then [] else [FilterStatus "P"])
      ++ [FilterLocalSite (local_site self)]
  /\ grid_show_closed self' = eff
  /\ changed
     = match profile with
       | Some p => negb (Bool.eqb (show_closed p) eff)
       | None => false
       end
  /\ profile' = (if changed then Some (mkProfile eff) else profile).
Proof.
  unfold load_extra_state, effective_show_closed, int_of_show_closed_param,
    queryset_filter.
  destruct profile as [[pc]|]; simpl;
    destruct (GET self !! "show-closed") as [text|]; simpl;
    try destruct (parse_int text) as [n|]; simpl;
    try destruct (n =? 0); simpl;
    try destruct pc; simpl;
    try destruct (grid_show_closed self); simpl;
    rewrite <- ?app_assoc; auto.
Qed.

End LoadExtraState.
End GridProperties.

Module Authorization.
Import Bitbucket.

Section Authorize.
Context (E : Externals).

Lemma api_get_run (url : string) (raw_content : bool) (w : world) (stored : string) :
  account_data w !! "password" = Some stored ->
  _api_get E url raw_content w
  = (api_response E url raw_content (account_username w) stored, requested url w).
Proof.
  intros Hpw. unfold _api_get, api_response, client_http_get, requested.
  run_M. rewrite Hpw. simpl.
  destruct (http_get E url (account_username w) (decrypt_password E stored)) as [e|data].
  - destruct e; reflexivity.
  - destruct raw_content; [reflexivity|].
    destruct (json_loads E data); reflexivity.
Qed.

Lemma api_get_no_password (url : string) (raw_content : bool) (w : world) :
  account_data w !! "password" = None ->
  _api_get E url raw_content w = (inl (KeyError "password"), w).
Proof.
  intros Hpw. unfold _api_get. run_M. rewrite Hpw. reflexivity.
Qed.

(** C3, as amended. [authorize] stores the encrypted password in the account
    data and sends one test request to the ['user'] endpoint.  If the
    request succeeds and the account is saved, the data holds the encrypted
    password and is what was saved.  On any failure the password entry is
    deleted from the account data before the exception propagates, the
    account is not saved, and a [HostingServiceError] with HTTP code 401 or
    403 is replaced by an [AuthorizationError]; the account data is then the
    prior data without a ['password'] entry. *)
Theorem authorize_spec (username password : string) (w : world) :
  let enc := encrypt_password E password in
  let data1 := <["password" := enc]> (account_data w) in
  let failure (e : exn) :=
    authorize E username password w
    = (inl (if is_auth_failure e then AuthorizationError INVALID_AUTH_MESSAGE else e),
       mkWorld (account_username w) (delete "password" (account_data w))
         (account_saved w) (http_log w ++ [USER_URL]) (closed_log w) (error_log w)) in
  match api_response E USER_URL false (account_username w) enc with
  | inr _ =>
      match db_write E data1 with
      | None =>
          authorize E username password w
          = (inr tt,
             mkWorld (account_username w) data1 data1 (http_log w ++ [USER_URL])
               (closed_log w) (error_log w))
      | Some e => failure e
      end
  | inl e => failure e
  end.
Proof.
  intros enc data1 failure.
  assert (Hfail : forall e w2,
             account_data w2 = data1 ->
             (match hosting_service_http_code e with
              | Some code =>
                  del_data "password" ;;;
                  (if code_in_401_403 code then raise (_raise_auth_error E JNull)
                   else raise e)
              | None => del_data "password" ;;; raise e
              end : M unit) w2
             = (inl (if is_auth_failure e then AuthorizationError INVALID_AUTH_MESSAGE
                     else e),
                mkWorld (account_username w2) (delete "password" (account_data w))
                  (account_saved w2) (http_log w2) (closed_log w2) (error_log w2))).
  { intros e w2 Hd.
    assert (Hdel : del_data "password" w2
                   = (inr tt, mkWorld (account_username w2)
                                (delete "password" (account_data w))
                                (account_saved w2) (http_log w2) (closed_log w2)
                                (error_log w2))).
    { unfold del_data. rewrite Hd. unfold data1.
      rewrite lookup_insert_eq, delete_insert_eq. reflexivity. }
    destruct e as [| | | | | |? ?|? [c|]|?|?|?|? ? ? ?|?]; simpl; run_M;
      rewrite Hdel; try reflexivity.
    destruct (c =? 401), (c =? 403); reflexivity. }
  set (w1 := mkWorld (account_username w) data1 (account_saved w) (http_log w)
                (closed_log w) (error_log w)).
  assert (Hget : _api_get E USER_URL false w1
                 = (api_response E USER_URL false (account_username w) enc,
                    requested USER_URL w1))
    by (apply (api_get_run USER_URL false w1 enc); apply lookup_insert_eq).
  assert (Hset : set_data "password" enc w = (inr tt, w1)) by reflexivity.
  unfold failure, authorize.
  change (_build_api_url "user" "1.0") with USER_URL. fold enc.
  rewrite (bind_ok _ _ _ _ _ Hset).
  destruct (api_response E USER_URL false (account_username w) enc) as [e|v].
  - erewrite try_raises by (eapply bind_raises; exact Hget).
    apply (Hfail e). reflexivity.
  - destruct (db_write E data1) as [e|] eqn:Hdb.
    + rewrite (try_raises _ _ w1 (requested USER_URL w1) e).
      * apply (Hfail e). reflexivity.
      * erewrite bind_ok by exact Hget.
        unfold account_save. cbn [account_data requested w1]. rewrite Hdb.
        reflexivity.
    + erewrite try_ok; [reflexivity|].
      erewrite bind_ok by exact Hget.
      unfold account_save. cbn [account_data requested w1]. rewrite Hdb.
      reflexivity.
Qed.

End Authorize.
End Authorization.

Module AuthorizationSamples.
Import Bitbucket Samples.

(** C3, as stated, fails in its last part: an account that already holds a
    password loses it from its data when a new authorization fails. *)
Lemma authorize_failure_drops_old_password :
  authorize offline_externals "alice" "new"
    (mkWorld "alice" {["password" := "enc:old"]} {["password" := "enc:old"]} [] [] [])
  = (inl URLError,
     mkWorld "alice" ∅ {["password" := "enc:old"]}
       ["https://bitbucket.org/api/1.0/user"] [] []).
Proof. vm_compute. reflexivity. Qed.

End AuthorizationSamples.

Module FileAccess.
Import Bitbucket.

Section Files.
Context (E : Externals).

(** C9. For a Git repository, [get_file] and [get_file_exists] called
    without a base commit ID send no API request: [get_file] raises
    [FileNotFoundError] with the detail about the missing revision
    information and [get_file_exists] returns [False].  In general
    [get_file_exists] returns [True] when the source fetch succeeds, [False]
    when it raises [URLError], [HTTPError] or [FileNotFoundError], and never
    raises one of these three. *)
Theorem file_lookup_spec (repository : Repository) (path revision : string)
    (base_commit_id : option string) (w : world) :
  (tool_name repository = "Git" ->
   opt_truthy base_commit_id = false ->
   get_file E repository path revision base_commit_id w
   = (inl (FileNotFoundError path (Some revision) None (Some MISSING_REVISION_DETAIL)), w)
   /\ get_file_exists E repository path revision base_commit_id w = (inr false, w))
  /\ match _api_get_src E repository path revision base_commit_id w with
     | (inr _, w') =>
         get_file_exists E repository path revision base_commit_id w = (inr true, w')
     | (inl e, w') =>
         get_file_exists E repository path revision base_commit_id w
         = (if means_missing e then inr false else inl e, w')
     end
  /\ (forall e w',
        get_file_exists E repository path revision base_commit_id w = (inl e, w') ->
        means_missing e = false).
Proof.
  assert (Hgen :
            match _api_get_src E repository path revision base_commit_id w with
            | (inr _, w') =>
                get_file_exists E repository path revision base_commit_id w
                = (inr true, w')
            | (inl e, w') =>
                get_file_exists E repository path revision base_commit_id w
                = (if means_missing e then inr false else inl e, w')
            end).
  { unfold get_file_exists, try_except, bind.
    destruct (_api_get_src E repository path revision base_commit_id w) as [[e|v] w'].
    - destruct e; reflexivity.
    - reflexivity. }
  split; [|split; [exact Hgen|]].
  - intros Htool Hbase.
    assert (Hsrc : _api_get_src E repository path revision base_commit_id w
                   = (inl (FileNotFoundError path (Some revision) None
                             (Some MISSING_REVISION_DETAIL)), w)).
    { unfold _api_get_src. rewrite Hbase, Htool. reflexivity. }
    split.
    + unfold get_file. rewrite (try_raises _ _ _ _ _ Hsrc). reflexivity.
    + rewrite Hsrc in Hgen. exact Hgen.
  - intros e w' Hrun.
    destruct (_api_get_src E repository path revision base_commit_id w) as [[e0|v] w0].
    + rewrite Hgen in Hrun. destruct (means_missing e0) eqn:Hm; [discriminate|].
      injection Hrun as <- _. exact Hm.
    + rewrite Hgen in Hrun. discriminate.
Qed.

End Files.
End FileAccess.

Module FileAccessSamples.
Import Bitbucket Samples FileAccess.

Lemma file_lookup_spec_witness :
  get_file sample_externals sample_repository "README" "abc123" None sample_world
  = (inl (FileNotFoundError "README" (Some "abc123") None (Some MISSING_REVISION_DETAIL)),
     sample_world)
  /\ get_file_exists sample_externals sample_repository "README" "abc123" None
       sample_world = (inr false, sample_world).
Proof.
  apply (proj1 (file_lookup_spec sample_externals sample_repository "README" "abc123"
                  None sample_world)); reflexivity.
Defined.

End FileAccessSamples.

Module Listing.
Import Bitbucket Authorization.

Lemma mapR_map {A B : Type} (f : A -> result B) (g : A -> B) (ok : A -> bool)
    (l : list A) :
  (forall x, ok x = true -> f x = inr (g x)) ->
  forallb ok l = true ->
  mapR f l = inr (map g l).
Proof.
  intros Hf. induction l as [|x l IH]; simpl; [reflexivity|].
  intros Hok. apply andb_prop in Hok as [Hx Hl].
  rewrite (Hf x Hx), (IH Hl). reflexivity.
Qed.

Lemma forallb_rev_true {A : Type} (ok : A -> bool) (l : list A) :
  forallb ok l = true -> forallb ok (rev l) = true.
Proof.
  rewrite !forallb_forall. intros H x Hx. apply H. by apply in_rev.
Qed.

Lemma owner_frame (repository : Repository) (owner : string) (w w1 w' : world) :
  _get_repository_owner repository w = (inr owner, w1) ->
  account_username w' = account_username w ->
  _get_repository_owner repository w' = (inr owner, w').
Proof.
  unfold _get_repository_owner, _get_repository_owner_raw.
  destruct (String.eqb (_get_repository_plan repository) "personal").
  { run_M. intros [= <- _] ->. reflexivity. }
  destruct (String.eqb (_get_repository_plan repository) "team").
  { run_M. intros [= -> _] _. reflexivity. }
  destruct (String.eqb (_get_repository_plan repository) "other-user").
  { run_M. intros [= -> _] _. reflexivity. }
  run_M. discriminate.
Qed.

Lemma build_url_run (repository : Repository) (owner name rest version : string)
    (w w1 w' : world) :
  _get_repository_owner repository w = (inr owner, w1) ->
  _get_repository_name repository = inr name ->
  account_username w' = account_username w ->
  _build_repository_api_url repository rest version w'
  = (inr (repository_url owner name rest version), w').
Proof.
  intros Howner Hname Huser. unfold _build_repository_api_url.
  rewrite (bind_ok _ _ _ _ _ (owner_frame _ _ _ _ _ Howner Huser)).
  rewrite Hname. reflexivity.
Qed.

Section Lists.
Context (E : Externals).

Lemma commit_of_changeset_ok (c : json) :
  changeset_ok c = true -> commit_of_changeset E c = inr (changeset_commit E c).
Proof.
  destruct c as [| | | |?|items]; try discriminate.
  unfold changeset_ok, commit_of_changeset, changeset_commit, has_key, field,
    py_getitem.
  destruct (assoc "author" items); [|discriminate].
  destruct (assoc "raw_node" items); [|discriminate].
  destruct (assoc "utctimestamp" items) as [[| | |t| |]|]; try discriminate.
  destruct (assoc "message" items); [|discriminate].
  destruct (assoc "parents" items) as [[| | | |ps|]|]; try discriminate.
  intros _. destruct ps; reflexivity.
Qed.

(** C5. [get_commits] sends one request, for the changesets of the repository
    with [limit=20] (and the start, when given), and turns the changesets of
    the response, last first, into commits: the id is the changeset's
    [raw_node], author and message are the changeset's, the date is its
    timestamp with the blank replaced by [T], and the parent is the first of
    its parents when there is one. *)
Theorem get_commits_spec (repository : Repository) (branch start : option string)
    (w w0 : world) (owner name stored : string) (rsp : json) (changesets : list json) :
  _get_repository_owner repository w = (inr owner, w0) ->
  _get_repository_name repository = inr name ->
  account_data w !! "password" = Some stored ->
  api_response E (changesets_url owner name (py_or start branch)) false
    (account_username w) stored = inr rsp ->
  py_getitem rsp "changesets" = inr (JArr changesets) ->
  forallb changeset_ok changesets = true ->
  get_commits E repository branch start w
  = (inr (rev (map (changeset_commit E) changesets)),
     requested (changesets_url owner name (py_or start branch)) w).
Proof.
  intros Howner Hname Hpw Hrsp Hcs Hok. unfold get_commits.
  rewrite (bind_ok _ _ _ _ _
             (build_url_run _ _ _ "changesets/?limit=20" "1.0" _ _ w Howner Hname
                eq_refl)).
  assert (Hurl : (if opt_truthy (py_or start branch)
                  then repository_url owner name "changesets/?limit=20" "1.0"
                       +:+ "&start=" +:+ default "" (py_or start branch)
                  else repository_url owner name "changesets/?limit=20" "1.0")
                 = changesets_url owner name (py_or start branch)).
  { unfold changesets_url. destruct (py_or start branch) as [s|]; simpl; reflexivity. }
  cbv zeta. rewrite Hurl.
  assert (Hget : _api_get E (changesets_url owner name (py_or start branch)) false w
                 = (inr rsp, requested (changesets_url owner name (py_or start branch)) w))
    by (rewrite (api_get_run E _ false w stored Hpw), Hrsp; reflexivity).
  rewrite (bind_ok _ _ _ _ _ Hget).
  unfold lift. unfold bind. rewrite Hcs. simpl py_reversed. cbv iota beta.
  rewrite (mapR_map _ (changeset_commit E) changeset_ok _ commit_of_changeset_ok
             (forallb_rev_true _ _ Hok)).
  rewrite map_rev. reflexivity.
Qed.

Lemma json_is_str_true (k : string) (v : json) :
  json_is_str k v = true <-> v = JStr k.
Proof.
  destruct v; simpl; try (split; [discriminate|congruence]).
  rewrite String.eqb_eq. split; [intros ->; reflexivity|congruence].
Qed.

Lemma branch_of_item_ok (default_branch_name : json) (item : string * json) :
  branch_item_ok item = true ->
  exists b, branch_of_item default_branch_name item = inr b
            /\ branch_matches default_branch_name item b.
Proof.
  destruct item as [k [| | | |?|fields]]; try discriminate.
  unfold branch_item_ok, branch_of_item, branch_matches, has_key, field. simpl.
  destruct (assoc "raw_node" fields) as [raw|]; [|discriminate].
  intros _. eexists. split; [reflexivity|]. simpl.
  repeat split; apply json_is_str_true.
Qed.

Lemma mapR_Forall2 {A B : Type} (f : A -> result B) (R : A -> B -> Prop)
    (ok : A -> bool) (l : list A) :
  (forall x, ok x = true -> exists y, f x = inr y /\ R x y) ->
  forallb ok l = true ->
  exists ys, mapR f l = inr ys /\ Forall2 R l ys.
Proof.
  intros Hf. induction l as [|x l IH]; simpl.
  - intros _. exists []. split; [reflexivity|constructor].
  - intros Hok. apply andb_prop in Hok as [Hx Hl].
    destruct (Hf x Hx) as (y & Hy & Hxy). destruct (IH Hl) as (ys & Hys & Hall).
    exists (y :: ys). rewrite Hy, Hys. split; [reflexivity|by constructor].
Qed.

(** C6. [get_branches] asks the main-branch endpoint for the default branch
    name, then the branches endpoint, and returns one [Branch] per item of
    the branches response: its id is the branch name, its commit the item's
    [raw_node], and it is the default exactly when its name is the default
    branch name. *)
Theorem get_branches_spec (repository : Repository) (w w0 : world)
    (owner name stored : string) (rsp default_branch_name : json)
    (items : list (string * json)) :
  _get_repository_owner repository w = (inr owner, w0) ->
  _get_repository_name repository = inr name ->
  account_data w !! "password" = Some stored ->
  api_response E (repository_url owner name "main-branch/" "1.0") false
    (account_username w) stored = inr rsp ->
  py_getitem rsp "name" = inr default_branch_name ->
  api_response E (repository_url owner name "branches/" "1.0") false
    (account_username w) stored = inr (JObj items) ->
  forallb branch_item_ok items = true ->
  exists branches,
    get_branches E repository w
    = (inr branches,
       requested (repository_url owner name "branches/" "1.0")
         (requested (repository_url owner name "main-branch/" "1.0") w))
    /\ Forall2 (branch_matches default_branch_name) items branches.
Proof.
  intros Howner Hname Hpw Hmain Hdefault Hbranches Hok.
  set (url1 := repository_url owner name "main-branch/" "1.0") in *.
  set (url2 := repository_url owner name "branches/" "1.0") in *.
  destruct (mapR_Forall2 (branch_of_item default_branch_name)
              (branch_matches default_branch_name) branch_item_ok items
              (branch_of_item_ok default_branch_name) Hok) as (branches & Hmap & Hall).
  exists branches. split; [|exact Hall].
  assert (Hname1 : _get_default_branch_name E repository w
                   = (inr default_branch_name, requested url1 w)).
  { unfold _get_default_branch_name.
    rewrite (bind_ok _ _ _ _ _
               (build_url_run _ _ _ "main-branch/" "1.0" _ _ w Howner Hname eq_refl)).
    fold url1.
    erewrite bind_ok
      by (rewrite (api_get_run E _ false w stored Hpw), Hmain; reflexivity).
    unfold lift. rewrite Hdefault. reflexivity. }
  unfold get_branches.
  rewrite (bind_ok _ _ _ _ _ Hname1).
  rewrite (bind_ok _ _ _ _ _
             (build_url_run _ _ _ "branches/" "1.0" _ _ (requested url1 w) Howner Hname
                eq_refl)).
  fold url2.
  erewrite bind_ok
    by (rewrite (api_get_run E _ false (requested url1 w) stored Hpw);
        cbn [account_username requested]; rewrite Hbranches; reflexivity).
  unfold lift, bind. simpl py_iteritems. cbv iota beta.
  rewrite Hmap. reflexivity.
Qed.

Lemma endswith_newline_app (d : string) : endswith_newline (d +:+ newline) = true.
Proof.
  induction d as [|c d IH]; [reflexivity|].
  simpl. destruct (d +:+ newline) eqn:Hd; [|exact IH].
  destruct d; discriminate.
Qed.

Lemma closed_diff_ends (d : string) : endswith_newline (closed_diff d) = true.
Proof.
  unfold closed_diff. destruct (endswith_newline d) eqn:Hd; [exact Hd|].
  apply endswith_newline_app.
Qed.

Lemma owner_noop (repository : Repository) (r : result string) (w w' : world) :
  _get_repository_owner repository w = (r, w') -> w' = w.
Proof.
  unfold _get_repository_owner, _get_repository_owner_raw.
  repeat match goal with |- context [if ?b then _ else _] => destruct b end;
    run_M; congruence.
Qed.

Lemma build_url_noop (repository : Repository) (rest version : string)
    (r : result string) (w w' : world) :
  _build_repository_api_url repository rest version w = (r, w') -> w' = w.
Proof.
  unfold _build_repository_api_url, bind.
  destruct (_get_repository_owner repository w) as [[e|owner] w1] eqn:Ho.
  - apply owner_noop in Ho. congruence.
  - apply owner_noop in Ho. unfold lift, ret.
    destruct (_get_repository_name repository); congruence.
Qed.

Lemma api_get_frame (url : string) (raw_content : bool) (r : result json)
    (w w' : world) :
  _api_get E url raw_content w = (r, w') ->
  account_username w' = account_username w /\ account_data w' = account_data w.
Proof.
  destruct (account_data w !! "password") as [stored|] eqn:Hpw.
  - rewrite (api_get_run E _ _ _ _ Hpw). intros [= _ <-]. split; reflexivity.
  - rewrite (api_get_no_password E _ _ _ Hpw). intros [= _ <-]. split; reflexivity.
Qed.

Lemma get_commits_frame (repository : Repository) (branch start : option string)
    (r : result (list Commit)) (w w' : world) :
  get_commits E repository branch start w = (r, w') ->
  account_username w' = account_username w /\ account_data w' = account_data w.
Proof.
  unfold get_commits, bind.
  destruct (_build_repository_api_url repository "changesets/?limit=20" "1.0" w)
    as [[e|url] w1] eqn:Hb; apply build_url_noop in Hb; subst w1.
  { intros [= _ <-]. split; reflexivity. }
  cbv zeta.
  match goal with |- context [_api_get E ?u false w] =>
    destruct (_api_get E u false w) as [[e|rsp] w2] eqn:Hg
  end; apply api_get_frame in Hg.
  { intros [= _ <-]. exact Hg. }
  unfold lift.
  destruct (py_getitem rsp "changesets") as [e|cs]; [intros [= _ <-]; exact Hg|].
  destruct (py_reversed cs) as [e|l]; [intros [= _ <-]; exact Hg|].
  intros [= _ <-]. exact Hg.
Qed.

(** C10. Whenever [get_change] returns a commit, its diff ends with a
    newline.  With the commit metadata found in the cache or, on a cache
    miss, taken from the first commit [get_commits] returns for the revision,
    and the diff fetched from the [diff/<revision>] endpoint of API 2.0,
    [get_change] returns a commit with the author, id, date, message and
    parent of the metadata and with the fetched diff, to which a newline is
    appended exactly when it does not end with one. *)
Theorem get_change_spec (repository : Repository) (revision : string) (w : world) :
  (forall c w', get_change E repository revision w = (inr c, w') ->
                exists d, diff c = Some d /\ endswith_newline d = true)
  /\ (forall (meta : Commit) (w0 w1 : world) (owner name stored fetched : string),
        _get_repository_owner repository w = (inr owner, w0) ->
        _get_repository_name repository = inr name ->
        account_data w !! "password" = Some stored ->
        (cache_get E (get_commit_cache_key E repository revision) = Some meta /\ w1 = w)
        \/ (cache_get E (get_commit_cache_key E repository revision) = None
            /\ exists rest, get_commits E repository (Some revision) None w
                            = (inr (meta :: rest), w1)) ->
        http_get E (repository_url owner name ("diff/" +:+ revision) "2.0")
          (account_username w) (decrypt_password E stored) = inr fetched ->
        get_change E repository revision w
        = (inr (mkCommit (author_name meta) (commit_id meta) (date meta) (message meta)
                  (Some (if endswith_newline fetched then fetched
                         else fetched +:+ newline))
                  (parent meta)),
           requested (repository_url owner name ("diff/" +:+ revision) "2.0") w1)).
Proof.
  split.
  - intros c w'. unfold get_change. unfold bind at 1.
    match goal with |- context [match ?m w with _ => _ end] =>
      destruct (m w) as [[e|meta] w1]
    end; [discriminate|].
    unfold bind at 1.
    destruct (_build_repository_api_url repository ("diff/" +:+ revision) "2.0" w1)
      as [[e|url] w2]; [discriminate|].
    unfold bind at 1.
    destruct (_api_get E url true w2) as [[e|fetched] w3]; [discriminate|].
    unfold bind, ret, raise.
    destruct fetched as [| | |d| |]; try discriminate.
    intros [= <- _]. eexists. split; [reflexivity|]. apply closed_diff_ends.
  - intros meta w0 w1 owner name stored fetched Howner Hname Hpw Hmeta Hfetch.
    set (url := repository_url owner name ("diff/" +:+ revision) "2.0") in *.
    assert (Hfirst :
              (match cache_get E (get_commit_cache_key E repository revision) with
               | Some commit => ret commit
               | None =>
                   commits <- get_commits E repository (Some revision) None ;;
                   match commits with
                   | commit :: _ => ret commit
                   | [] => raise IndexError
                   end
               end) w = (inr meta, w1)
              /\ account_username w1 = account_username w
              /\ account_data w1 = account_data w).
    { destruct Hmeta as [[-> ->]|[-> [rest Hc]]].
      - repeat split.
      - rewrite (bind_ok _ _ _ _ _ Hc). split; [reflexivity|].
        exact (get_commits_frame _ _ _ _ _ _ Hc). }
    destruct Hfirst as (Hfirst & Huser & Hdata).
    unfold get_change.
    rewrite (bind_ok _ _ _ _ _ Hfirst).
    rewrite (bind_ok _ _ _ _ _
               (build_url_run _ _ _ ("diff/" +:+ revision) "2.0" _ _ w1 Howner Hname
                  Huser)).
    fold url.
    assert (Hget : _api_get E url true w1 = (inr (JStr fetched), requested url w1)).
    { rewrite (api_get_run E url true w1 stored) by (rewrite Hdata; exact Hpw).
      unfold api_response. rewrite Huser, Hfetch. reflexivity. }
    rewrite (bind_ok _ _ _ _ _ Hget). reflexivity.
Qed.

End Lists.
End Listing.

Module ListingSamples.
Import Bitbucket Samples Listing.

Lemma get_commits_spec_witness :
  get_commits api_externals sample_repository None None authorized_world
  = (inr [mkCommit (JStr "bob") (JStr "2222222222") (JStr "2014-01-02T11:30:00+00:00")
            (JStr "Second") None (JStr "1111111111");
          mkCommit (JStr "alice") (JStr "1111111111") (JStr "2014-01-01T10:00:00+00:00")
            (JStr "First") None (JStr "")],
     requested "https://bitbucket.org/api/1.0/repositories/alice/rb/changesets/?limit=20"
       authorized_world).
Proof.
  exact (get_commits_spec api_externals sample_repository None None authorized_world
           authorized_world "alice" "rb" "enc:secret"
           (JObj [("changesets", JArr [first_changeset; second_changeset])])
           [first_changeset; second_changeset]
           eq_refl eq_refl eq_refl eq_refl eq_refl eq_refl).
Defined.

Lemma get_branches_spec_witness :
  exists branches,
    get_branches api_externals sample_repository authorized_world
    = (inr branches,
       requested "https://bitbucket.org/api/1.0/repositories/alice/rb/branches/"
         (requested "https://bitbucket.org/api/1.0/repositories/alice/rb/main-branch/"
            authorized_world))
    /\ Forall2 (branch_matches (JStr "master"))
         [("master", JObj [("raw_node", JStr "2222222222")]);
          ("stable", JObj [("raw_node", JStr "1111111111")])]
         branches.
Proof.
  exact (get_branches_spec api_externals sample_repository authorized_world
           authorized_world "alice" "rb" "enc:secret" (JObj [("name", JStr "master")])
           (JStr "master") _ eq_refl eq_refl eq_refl eq_refl eq_refl eq_refl eq_refl).
Defined.

Lemma get_change_spec_witness :
  get_change api_externals sample_repository "abc" authorized_world
  = (inr (mkCommit (JStr "bob") (JStr "abc") (JStr "2014-01-02T11:30:00+00:00")
            (JStr "Second") (Some ("diff --git a/x b/x" +:+ newline))
            (JStr "1111111111")),
     requested "https://bitbucket.org/api/2.0/repositories/alice/rb/diff/abc"
       authorized_world).
Proof.
  exact (proj2 (get_change_spec api_externals sample_repository "abc" authorized_world)
           cached_commit authorized_world authorized_world "alice" "rb" "enc:secret"
           "diff --git a/x b/x" eq_refl eq_refl eq_refl
           (or_introl (conj eq_refl eq_refl)) eq_refl).
Defined.

End ListingSamples.

Module Webhook.
Import Bitbucket.

Section Hook.
Context (E : Externals).

Lemma add_commit_ok (server_url : string) (repository : Repository)
    (d : id_map) (c : json) :
  payload_commit_ok c = true ->
  add_commit E server_url repository d c
  = inr (if has_branch c
         then append_to (commit_review_request_id E server_url repository c)
                (commit_entry E c) d
         else d).
Proof.
  destruct c as [| | | |?|items]; try discriminate.
  unfold payload_commit_ok, has_branch, add_commit, commit_entry,
    commit_review_request_id, short_hash. simpl.
  destruct (truthy (default JNull (assoc "branch" items))); simpl; [|reflexivity].
  destruct (default JNull (assoc "raw_node" items)); try discriminate.
  intros _. reflexivity.
Qed.

Lemma extend_app (o : option (list string)) (l1 l2 : list string) :
  extend (extend o l1) l2 = extend o (l1 ++ l2).
Proof.
  destruct l1 as [|x l1]; [reflexivity|].
  destruct l2 as [|y l2]; simpl.
  - by rewrite app_nil_r.
  - by rewrite <- app_assoc.
Qed.

Lemma append_to_lookup (k k' : option Z) (x : string) (d : id_map) :
  append_to k x d !! k' = extend (d !! k') (if bool_decide (k = k') then [x] else []).
Proof.
  unfold append_to. case_bool_decide as Hk.
  - subst. by rewrite lookup_insert_eq.
  - by rewrite lookup_insert_ne.
Qed.

Lemma fold_entries (server_url : string) (repository : Repository)
    (cs : list json) :
  forall d : id_map,
    forallb payload_commit_ok cs = true ->
    exists d' : id_map,
      foldR (add_commit E server_url repository) d cs = inr d'
      /\ forall k, d' !! k = extend (d !! k) (entries_for E server_url repository k cs).
Proof.
  induction cs as [|c cs IH]; intros d Hok; simpl in *.
  - exists d. split; [reflexivity|]. intros k. reflexivity.
  - apply andb_prop in Hok as [Hc Hcs].
    rewrite (add_commit_ok _ _ _ _ Hc). simpl.
    destruct (IH (if has_branch c
                  then append_to (commit_review_request_id E server_url repository c)
                         (commit_entry E c) d
                  else d) Hcs) as (d' & Hfold & Hlook).
    exists d'. split; [exact Hfold|].
    intros k. rewrite Hlook. unfold entries_for. simpl.
    destruct (has_branch c); simpl.
    + rewrite append_to_lookup, extend_app.
      case_bool_decide; reflexivity.
    + reflexivity.
Qed.

Lemma commits_map_run (payload : json) (server_url : string)
    (repository : Repository) (commits : list json) :
  payload_commits payload = Some commits ->
  exists d : id_map,
    _get_review_request_id_to_commits_map E payload server_url repository = inr d
    /\ forall k, d !! k
                 = match entries_for E server_url repository k commits with
                   | [] => None
                   | l => Some l
                   end.
Proof.
  intros Hp. destruct payload as [| | | |?|items]; try discriminate.
  simpl in Hp. unfold _get_review_request_id_to_commits_map. simpl.
  destruct (default (JArr []) (assoc "commits" items)) as [| | | |cs|?];
    try discriminate.
  destruct (forallb payload_commit_ok cs) eqn:Hok; [|discriminate].
  injection Hp as <-. simpl.
  destruct (fold_entries server_url repository cs ∅ Hok) as (d & Hfold & Hlook).
  exists d. split; [exact Hfold|].
  intros k. rewrite Hlook, lookup_empty.
  destruct (entries_for E server_url repository k cs); reflexivity.
Qed.


(** C1, as amended. For a POST whose ['payload'] field holds valid JSON from
    which the dictionary from review request IDs to commits can be built, the
    handler builds it, calls [close_all_review_requests] with it exactly when
    it is not empty, and returns an HTTP 200 response; what the building
    raises, the handler raises.  The dictionary can be built from every
    payload of the webhook's shape: a dictionary whose ['commits'], when
    present, is a list of commit dictionaries, each with a text hash when it
    has a branch value. *)
Theorem hook_closes_and_responds (request : Request)
    (local_site_name repository_id hosting_service_id hooks_uuid : option string)
    (text : string) (payload : json) (w : world) :
  POST request !! "payload" = Some text ->
  json_loads E text = Some payload ->
  let built :=
    _get_review_request_id_to_commits_map E payload (get_server_url E request)
      (get_repository_for_hook E repository_id hosting_service_id local_site_name
         hooks_uuid) in
  let response :=
    post_receive_hook_close_submitted E request local_site_name repository_id
      hosting_service_id hooks_uuid w in
  (forall d : id_map,
      built = inr d ->
      response = (inr (mkResponse 200 ""), if is_empty_map d then w else closing d w))
  /\ (forall e, built = inl e -> response = (inl e, w))
  /\ (forall commits, payload_commits payload = Some commits ->
                      exists d : id_map, built = inr d).
Proof.
  intros Hpost Hjson built response.
  assert (Hrun : response
                 = match built with
                   | inr d => (inr (mkResponse 200 ""),
                               if is_empty_map d then w else closing d w)
                   | inl e => (inl e, w)
                   end).
  { unfold response, post_receive_hook_close_submitted. rewrite Hpost, Hjson.
    fold built. unfold lift, bind. destruct built as [e|d]; [reflexivity|].
    destruct (is_empty_map d); reflexivity. }
  split; [|split].
  - intros d Hd. rewrite Hrun, Hd. reflexivity.
  - intros e He. rewrite Hrun, He. reflexivity.
  - intros commits Hshape.
    destruct (commits_map_run payload (get_server_url E request)
                (get_repository_for_hook E repository_id hosting_service_id
                   local_site_name hooks_uuid) commits Hshape) as (d & Hmap & _).
    exists d. exact Hmap.
Qed.

(** C7. Without a ['payload'] field the handler answers 400 with the body
    ['Missing payload']; with a ['payload'] that is not valid JSON it answers
    400 with the body ['Invalid payload format']; in both cases
    [close_all_review_requests] is not called. *)
Theorem hook_bad_request (request : Request)
    (local_site_name repository_id hosting_service_id hooks_uuid : option string)
    (w : world) :
  (POST request !! "payload" = None ->
   exists w',
     post_receive_hook_close_submitted E request local_site_name repository_id
       hosting_service_id hooks_uuid w
     = (inr (mkResponse 400 "Missing payload"), w')
     /\ closed_log w' = closed_log w)
  /\ (forall text,
        POST request !! "payload" = Some text ->
        json_loads E text = None ->
        exists w',
          post_receive_hook_close_submitted E request local_site_name repository_id
            hosting_service_id hooks_uuid w
          = (inr (mkResponse 400 "Invalid payload format"), w')
          /\ closed_log w' = closed_log w).
Proof.
  unfold post_receive_hook_close_submitted. split.
  - intros ->. exists w. split; reflexivity.
  - intros text -> ->. eexists. split; reflexivity.
Qed.

End Hook.
End Webhook.

Module WebhookSamples.
Import Bitbucket Samples Webhook.


Lemma hook_closes_and_responds_witness :
  post_receive_hook_close_submitted sample_externals (sample_request "push")
    None (Some "1") (Some "bitbucket") (Some "abc") sample_world
  = (inr (mkResponse 200 ""),
     closing {[Some 42 := ["master (0123456)"]]} sample_world).
Proof.
  exact (proj1 (hook_closes_and_responds sample_externals (sample_request "push")
                  None (Some "1") (Some "bitbucket") (Some "abc") "push"
                  (JObj [("commits",
                          JArr [JObj [("raw_node", JStr "0123456789abcdef");
                                      ("message", JStr "Reviewed at /r/42/");
                                      ("branch", JStr "master")];
                                JObj [("raw_node", JStr "fedcba9876543210");
                                      ("message", JStr "Tidy up")]])])
                  sample_world eq_refl eq_refl)
           {[Some 42 := ["master (0123456)"]]} eq_refl).
Defined.


(** C1, as stated, fails: the text ["[]"] is valid JSON, and on it the
    handler raises [AttributeError] instead of answering 200. *)
Lemma hook_list_payload_raises :
  POST (sample_request "[]") !! "payload" = Some "[]"
  /\ json_loads sample_externals "[]" = Some (JArr [])
  /\ post_receive_hook_close_submitted sample_externals (sample_request "[]")
       None (Some "1") (Some "bitbucket") (Some "abc") sample_world
     = (inl AttributeError, sample_world).
Proof. repeat split. Qed.

Lemma hook_bad_request_witness :
  (exists w',
      post_receive_hook_close_submitted sample_externals (mkRequest ∅)
        None (Some "1") (Some "bitbucket") (Some "abc") sample_world
      = (inr (mkResponse 400 "Missing payload"), w')
      /\ closed_log w' = closed_log sample_world)
  /\ (exists w',
        post_receive_hook_close_submitted sample_externals (sample_request "{oops")
          None (Some "1") (Some "bitbucket") (Some "abc") sample_world
        = (inr (mkResponse 400 "Invalid payload format"), w')
        /\ closed_log w' = closed_log sample_world).
Proof.
  pose proof (hook_bad_request sample_externals (mkRequest ∅)
                None (Some "1") (Some "bitbucket") (Some "abc") sample_world) as [H1 _].
  pose proof (hook_bad_request sample_externals (sample_request "{oops")
                None (Some "1") (Some "bitbucket") (Some "abc") sample_world) as [_ H2].
  split; [apply H1; reflexivity | apply (H2 "{oops"); reflexivity].
Defined.

End WebhookSamples.

(** ** Worked examples *)

Module Examples.
Import Bitbucket Samples.

Example parse_timestamp_example :
  _parse_timestamp (JStr "2014-01-01 10:00:00+00:00")
  = inr (JStr "2014-01-01T10:00:00+00:00").
Proof. reflexivity. Qed.

Example endswith_newline_examples :
  endswith_newline "" = false
  /\ endswith_newline "diff" = false
  /\ endswith_newline ("diff" +:+ newline) = true.
Proof. repeat split. Qed.

Example check_api_error_unauthorized :
  _check_api_error api_externals 401 "" = AuthorizationError INVALID_AUTH_MESSAGE.
Proof. reflexivity. Qed.

Example check_api_error_missing_repository :
  _check_api_error api_externals 404 "Repository alice/rb not found"
  = HostingServiceError "Repository alice/rb not found" (Some 404).
Proof. reflexivity. Qed.

Example check_api_error_missing_file :
  _check_api_error api_externals 404 "Not found" = FileNotFoundError "" None None None.
Proof. reflexivity. Qed.

Example check_api_error_other :
  _check_api_error api_externals 500 ""
  = HostingServiceError "Unexpected HTTP 500 error when talking to Bitbucket" (Some 500).
Proof. reflexivity. Qed.

(** A successful authorization stores and saves the encrypted password. *)
Example authorize_success :
  authorize sample_externals "alice" "secret" sample_world
  = (inr tt,
     mkWorld "alice" {["password" := "enc:secret"]} {["password" := "enc:secret"]}
       ["https://bitbucket.org/api/1.0/user"] [] []).
Proof. vm_compute. reflexivity. Qed.

(** A file the server does not have, fetched with a base commit ID. *)
Example get_file_exists_missing :
  get_file_exists api_externals sample_repository "README" "tip" (Some "abc")
    authorized_world
  = (inr false,
     requested "https://bitbucket.org/api/1.0/repositories/alice/rb/raw/abc/README"
       authorized_world).
Proof. vm_compute. reflexivity. Qed.

Example get_file_missing :
  get_file api_externals sample_repository "README" "tip" (Some "abc") authorized_world
  = (inl (FileNotFoundError "README" (Some "abc") (Some "abc") None),
     requested "https://bitbucket.org/api/1.0/repositories/alice/rb/raw/abc/README"
       authorized_world).
Proof. vm_compute. reflexivity. Qed.

(** On a cache miss the metadata comes from [get_commits]; here the server
    has no changesets for the revision. *)
Example get_change_unknown_revision :
  get_change api_externals sample_repository "zzz" authorized_world
  = (inl (FileNotFoundError "" None None None),
     requested
       "https://bitbucket.org/api/1.0/repositories/alice/rb/changesets/?limit=20&start=zzz"
       authorized_world).
Proof. vm_compute. reflexivity. Qed.

Example load_extra_state_example :
  Grids.load_extra_state (fun _ => Some 0)
    (Grids.mkDataGrid true [] (Some 7) {["show-closed" := "0"]})
    (Some (Grids.mkProfile true))
  = (true,
     Grids.mkDataGrid false [Grids.FilterStatus "P"; Grids.FilterLocalSite (Some 7)]
       (Some 7) {["show-closed" := "0"]},
     Some (Grids.mkProfile false)).
Proof. reflexivity. Qed.

End Examples.

(** * Further properties of the Bitbucket service *)

Module ApiRequests.
Import Bitbucket Authorization.

Section Requests.
Context (E : Externals).

(** X1. [_api_get] never changes the account, its saved record or the logs
    of closed review requests and errors.  With a stored password it sends
    exactly one request, to the given URL; without one it raises
    [KeyError('password')] and sends nothing. *)
Theorem api_get_effects (url : string) (raw_content : bool) (w : world) :
  let '(r, w') := _api_get E url raw_content w in
  account_username w' = account_username w
  /\ account_data w' = account_data w
  /\ account_saved w' = account_saved w
  /\ closed_log w' = closed_log w
  /\ error_log w' = error_log w
  /\ match account_data w !! "password" with
     | Some _ => http_log w' = http_log w ++ [url]
     | None => http_log w' = http_log w /\ r = inl (KeyError "password")
     end.
Proof.
  destruct (account_data w !! "password") as [stored|] eqn:Hpw.
  - rewrite (api_get_run E url raw_content w stored Hpw). repeat split.
  - rewrite (api_get_no_password E url raw_content w Hpw). repeat split.
Qed.

Lemma check_api_error_not_http (code : Z) (data : string) :
  is_http_error (_check_api_error E code data) = false.
Proof.
  unfold _check_api_error, _raise_auth_error, rbind, py_in, py_getitem.
  destruct (default JNull (json_loads E data)) as [|b|n|s|l|items]; simpl;
    repeat match goal with
      | |- context [if ?b then _ else _] => destruct b; simpl
      | |- context [match assoc ?k ?l with _ => _ end] => destruct (assoc k l); simpl
      | |- context [match ?v with JNull => _ | _ => _ end] => destruct v; simpl
      end; reflexivity.
Qed.

(** X2. [_api_get] never lets an [HTTPError] escape: the error of the HTTP
    client is replaced by what [_check_api_error] raises for it, which is
    never an [HTTPError]. *)
Theorem api_get_never_raises_http_error (url : string) (raw_content : bool)
    (w w' : world) (e : exn) :
  _api_get E url raw_content w = (inl e, w') -> is_http_error e = false.
Proof.
  destruct (account_data w !! "password") as [stored|] eqn:Hpw.
  - rewrite (api_get_run E url raw_content w stored Hpw). unfold api_response.
    destruct (http_get E url (account_username w) (decrypt_password E stored))
      as [e0|data].
    + destruct e0; intros [= <- _]; try reflexivity.
      apply check_api_error_not_http.
    + destruct raw_content; [discriminate|].
      destruct (json_loads E data); [discriminate|]. intros [= <- _]. reflexivity.
  - rewrite (api_get_no_password E url raw_content w Hpw). intros [= <- _].
    reflexivity.
Qed.

(** X3. For an error body that is not JSON, or is a JSON object without an
    ['error'] entry, [_check_api_error] takes the body itself as the
    message: 401 raises [AuthorizationError] (with the standard text for an
    empty body), 404 raises [HostingServiceError] when the message starts
    with ['Repository'] and [FileNotFoundError('')] otherwise, and any other
    code raises [HostingServiceError] with that code. *)
Theorem check_api_error_plain_body (code : Z) (data : string) :
  json_loads E data = None
  \/ (exists items, json_loads E data = Some (JObj items) /\ assoc "error" items = None) ->
  _check_api_error E code data = api_error_for code data.
Proof.
  intros Hbody.
  assert (Hfound :
            (has_error <~ (if truthy (default JNull (json_loads E data))
                           then py_in "error" (default JNull (json_loads E data))
                           else inr false) ;;
             if has_error : bool then
               error <~ py_getitem (default JNull (json_loads E data)) "error" ;;
               has_message <~ py_in "message" error ;;
               if has_message : bool then py_getitem error "message"
               else inr (JStr data)
             else inr (JStr data)) = inr (JStr data)).
  { destruct Hbody as [->|(items & -> & Hnone)]; [reflexivity|].
    simpl. rewrite Hnone. destruct items; reflexivity. }
  unfold _check_api_error. cbv zeta. rewrite Hfound. cbv beta iota.
  unfold api_error_for, _raise_auth_error, str_truthy, truthy, format_s.
  destruct (String.eqb data "") eqn:Hd; simpl; rewrite ?Hd; reflexivity.
Qed.

(** X4. For a JSON error body [{"error": {"message": m}}] with a text [m],
    [_check_api_error] raises the error for the code with [m] as the
    message. *)
Theorem check_api_error_json_message (code : Z) (data m : string)
    (items fields : list (string * json)) :
  json_loads E data = Some (JObj items) ->
  assoc "error" items = Some (JObj fields) ->
  assoc "message" fields = Some (JStr m) ->
  _check_api_error E code data = api_error_for code m.
Proof.
  intros Hbody Herror Hmessage.
  unfold _check_api_error. rewrite Hbody. simpl.
  rewrite Herror. destruct items as [|item items]; [discriminate|]. simpl.
  rewrite Hmessage. cbv beta iota.
  unfold api_error_for, _raise_auth_error, str_truthy, truthy, format_s.
  destruct (String.eqb m "") eqn:Hm; simpl; rewrite ?Hm; reflexivity.
Qed.

End Requests.
End ApiRequests.

Module Repositories.
Import Bitbucket Authorization Listing.

Section Checks.
Context (E : Externals) (invalid_plan_message : string -> string).

(** X5. [check_repository] refuses a repository name that contains ['/'] or
    ['.git'] with a [RepositoryError] (the path message first) before any
    request is sent: the world is unchanged. *)
Theorem check_repository_rejects_bad_names (plan : string)
    (kwargs : gmap string string) (name : string) (w : world) :
  _get_repository_name_raw plan kwargs = inr name ->
  is_substring "/" name || is_substring ".git" name = true ->
  check_repository E invalid_plan_message plan kwargs w
  = (inl (RepositoryError (if is_substring "/" name then PATH_IN_NAME_MESSAGE
                           else GIT_IN_NAME_MESSAGE)), w).
Proof.
  intros Hname Hbad. unfold check_repository.
  rewrite (bind_ok _ _ w w name) by (unfold lift; rewrite Hname; reflexivity).
  destruct (is_substring "/" name); [reflexivity|].
  simpl in Hbad. rewrite Hbad. reflexivity.
Qed.

Lemma check_handler_spec (e : exn) (w : world) :
  (match hosting_service_http_code e with
   | Some _ =>
       if String.eqb (exn_text invalid_plan_message e) "Resource not found"
       then raise (RepositoryError REPOSITORY_NOT_FOUND_MESSAGE)
       else raise e
   | None => raise e
   end : M unit) w
  = (inl (repository_check_error invalid_plan_message e), w).
Proof.
  destruct e; simpl; try reflexivity;
    match goal with |- context [String.eqb ?a ?b] => destruct (String.eqb a b) end;
    reflexivity.
Qed.

(** X6. For a well-formed name, [check_repository] sends one request for
    ['repositories/<owner>/<name>'] and returns when it succeeds; a
    [HostingServiceError] whose text is ['Resource not found'] becomes a
    [RepositoryError] saying that no repository with this name was found,
    and every other error is raised as it is. *)
Theorem check_repository_outcome (plan : string) (kwargs : gmap string string)
    (owner name stored : string) (w w0 : world) :
  _get_repository_name_raw plan kwargs = inr name ->
  is_substring "/" name = false ->
  is_substring ".git" name = false ->
  _get_repository_owner_raw plan kwargs w = (inr owner, w0) ->
  account_data w !! "password" = Some stored ->
  let url := "https://bitbucket.org/api/1.0/repositories/" +:+ owner +:+ "/" +:+ name in
  check_repository E invalid_plan_message plan kwargs w
  = (match api_response E url false (account_username w) stored with
     | inr _ => inr tt
     | inl e => inl (repository_check_error invalid_plan_message e)
     end,
     requested url w).
Proof.
  intros Hname Hslash Hgit Howner Hpw url.
  assert (Hw0 : w0 = w).
  { revert Howner. unfold _get_repository_owner_raw.
    repeat match goal with |- context [if ?b then _ else _] => destruct b end;
      run_M; congruence. }
  subst w0. unfold check_repository.
  rewrite (bind_ok _ _ w w name) by (unfold lift; rewrite Hname; reflexivity).
  rewrite Hslash, Hgit.
  assert (Hbody :
            (owner <- _get_repository_owner_raw plan kwargs ;;
             name <- lift (_get_repository_name_raw plan kwargs) ;;
             _api_get_repository E owner name ;;;
             ret tt) w
            = (match api_response E url false (account_username w) stored with
               | inr _ => inr tt
               | inl e => inl e
               end, requested url w)).
  { rewrite (bind_ok _ _ _ _ _ Howner).
    rewrite (bind_ok _ _ w w name) by (unfold lift; rewrite Hname; reflexivity).
    unfold _api_get_repository.
    change (_build_api_url ("repositories/" +:+ owner +:+ "/" +:+ name) "1.0") with url.
    unfold bind. rewrite (api_get_run E url false w stored Hpw).
    destruct (api_response E url false (account_username w) stored); reflexivity. }
  destruct (api_response E url false (account_username w) stored) as [e|v].
  - rewrite (try_raises _ _ _ _ _ Hbody). apply check_handler_spec.
  - rewrite (try_ok _ _ _ _ _ Hbody). reflexivity.
Qed.

(** X7. After [authorize], [is_authorized] answers [True] exactly when the
    authorization succeeded: a failed one leaves the account without a
    password, whatever it held before. *)
Theorem is_authorized_after_authorize (username password : string) (w w1 : world)
    (r : result unit) :
  authorize E username password w = (r, w1) ->
  is_authorized w1 = (inr (match r with inr _ => true | inl _ => false end), w1).
Proof.
  set (enc := encrypt_password E password).
  set (w0 := mkWorld (account_username w) (<["password" := enc]> (account_data w))
               (account_saved w) (http_log w) (closed_log w) (error_log w)).
  assert (Hset : set_data "password" enc w = (inr tt, w0)) by reflexivity.
  assert (Hget : _api_get E USER_URL false w0
                 = (api_response E USER_URL false (account_username w) enc,
                    requested USER_URL w0))
    by (apply (api_get_run E USER_URL false w0 enc); apply lookup_insert_eq).
  assert (Hfail : forall e,
             (match hosting_service_http_code e with
              | Some code =>
                  del_data "password" ;;;
                  (if code_in_401_403 code then raise (_raise_auth_error E JNull)
                   else raise e)
              | None => del_data "password" ;;; raise e
              end : M unit) (requested USER_URL w0) = (r, w1) ->
             is_authorized w1 = (inr (match r with inr _ => true | inl _ => false end), w1)).
  { intros e.
    assert (Hdel : del_data "password" (requested USER_URL w0)
                   = (inr tt,
                      mkWorld (account_username w) (delete "password" (account_data w))
                        (account_saved w) (http_log w ++ [USER_URL]) (closed_log w)
                        (error_log w))).
    { unfold del_data. cbn [account_data requested w0].
      rewrite lookup_insert_eq, delete_insert_eq. reflexivity. }
    destruct (hosting_service_http_code e) as [code|].
    - rewrite (bind_ok _ _ _ _ _ Hdel).
      destruct (code_in_401_403 code); intros [= <- <-];
        unfold is_authorized, bind, get_world, ret; cbn [account_data];
        rewrite lookup_delete_eq; reflexivity.
    - rewrite (bind_ok _ _ _ _ _ Hdel). intros [= <- <-].
      unfold is_authorized, bind, get_world, ret; cbn [account_data];
        rewrite lookup_delete_eq; reflexivity. }
  unfold authorize. change (_build_api_url "user" "1.0") with USER_URL. fold enc.
  rewrite (bind_ok _ _ _ _ _ Hset).
  destruct (api_response E USER_URL false (account_username w) enc) as [e|v].
  - rewrite (try_raises _ _ w0 (requested USER_URL w0) e)
      by (eapply bind_raises; exact Hget).
    apply Hfail.
  - destruct (db_write E (<["password" := enc]> (account_data w))) as [e|] eqn:Hdb.
    + rewrite (try_raises _ _ w0 (requested USER_URL w0) e).
      * apply Hfail.
      * rewrite (bind_ok _ _ _ _ _ Hget). unfold account_save.
        cbn [account_data requested w0]. rewrite Hdb. reflexivity.
    + rewrite (try_ok _ _ w0
                 (mkWorld (account_username w) (<["password" := enc]> (account_data w))
                    (<["password" := enc]> (account_data w)) (http_log w ++ [USER_URL])
                    (closed_log w) (error_log w)) tt).
      * intros [= <- <-]. unfold is_authorized, bind, get_world, ret.
        cbn [account_data]. rewrite lookup_insert_eq. reflexivity.
      * rewrite (bind_ok _ _ _ _ _ Hget). unfold account_save.
        cbn [account_data requested w0]. rewrite Hdb. reflexivity.
Qed.

End Checks.
End Repositories.

Module Plans.
Import Bitbucket Authorization Listing.

Lemma unknown_plan_owner (repository : Repository) (w : world) :
  known_plan (_get_repository_plan repository) = false ->
  _get_repository_owner repository w
  = (inl (InvalidPlanError (_get_repository_plan repository)), w).
Proof.
  unfold known_plan, _get_repository_owner, _get_repository_owner_raw.
  destruct (String.eqb (_get_repository_plan repository) "personal"); [discriminate|].
  destruct (String.eqb (_get_repository_plan repository) "team"); [discriminate|].
  destruct (String.eqb (_get_repository_plan repository) "other-user"); [discriminate|].
  reflexivity.
Qed.

Lemma unknown_plan_url (repository : Repository) (rest version : string) (w : world) :
  known_plan (_get_repository_plan repository) = false ->
  _build_repository_api_url repository rest version w
  = (inl (InvalidPlanError (_get_repository_plan repository)), w).
Proof.
  intros Hplan. unfold _build_repository_api_url.
  apply bind_raises, unknown_plan_owner, Hplan.
Qed.

Section PlanProperties.
Context (E : Externals).

(** X8. For a repository whose plan is none of ['personal'], ['team'] and
    ['other-user'], [get_branches], [get_commits] and [get_change] raise
    [InvalidPlanError] for that plan without sending any request: the world
    is unchanged. *)
Theorem unknown_plan_sends_nothing (repository : Repository) (w : world) :
  known_plan (_get_repository_plan repository) = false ->
  let e := InvalidPlanError (_get_repository_plan repository) in
  get_branches E repository w = (inl e, w)
  /\ (forall branch start, get_commits E repository branch start w = (inl e, w))
  /\ (forall revision, get_change E repository revision w = (inl e, w)).
Proof.
  intros Hplan e.
  assert (Hcommits : forall branch start,
             get_commits E repository branch start w = (inl e, w)).
  { intros branch start. unfold get_commits.
    apply bind_raises, unknown_plan_url, Hplan. }
  split; [|split; [exact Hcommits|]].
  - unfold get_branches, _get_default_branch_name.
    apply bind_raises, bind_raises, unknown_plan_url, Hplan.
  - intros revision. unfold get_change.
    destruct (cache_get E (get_commit_cache_key E repository revision)) as [meta|].
    + rewrite (bind_ok _ _ w w meta eq_refl).
      apply bind_raises, unknown_plan_url, Hplan.
    + apply bind_raises, bind_raises, Hcommits.
Qed.

(** X9. The URL of a repository resource follows the plan.  Without a
    plan, or under ['personal'], it is
    ['repositories/<account username>/<bitbucket_repo_name>/'], under
    ['team'] ['repositories/<bitbucket_team_name>/<bitbucket_team_repo_name>/']
    and under ['other-user']
    ['repositories/<bitbucket_other_user_username>/<bitbucket_other_user_repo_name>/'];
    building it changes nothing. *)
Theorem repository_url_by_plan (repository : Repository) (rest version : string)
    (w : world) :
  let plan := default "" (extra_data repository !! "repository_plan") in
  (plan = "" \/ plan = "personal" ->
   forall name,
     extra_data repository !! "bitbucket_repo_name" = Some name ->
     _build_repository_api_url repository rest version w
     = (inr (repository_url (account_username w) name rest version), w))
  /\ (plan = "team" ->
      forall team name,
        extra_data repository !! "bitbucket_team_name" = Some team ->
        extra_data repository !! "bitbucket_team_repo_name" = Some name ->
        _build_repository_api_url repository rest version w
        = (inr (repository_url team name rest version), w))
  /\ (plan = "other-user" ->
      forall owner name,
        extra_data repository !! "bitbucket_other_user_username" = Some owner ->
        extra_data repository !! "bitbucket_other_user_repo_name" = Some name ->
        _build_repository_api_url repository rest version w
        = (inr (repository_url owner name rest version), w)).
Proof.
  intros plan.
  assert (Hplan : _get_repository_plan repository
                  = if String.eqb plan "" then "personal" else plan).
  { unfold _get_repository_plan, plan, str_truthy.
    destruct (extra_data repository !! "repository_plan") as [p|]; simpl;
      [|reflexivity].
    destruct (String.eqb p ""); reflexivity. }
  assert (Hrun : forall owner name,
             _get_repository_owner repository w = (inr owner, w) ->
             _get_repository_name repository = inr name ->
             _build_repository_api_url repository rest version w
             = (inr (repository_url owner name rest version), w)).
  { intros owner name Ho Hn. exact (build_url_run _ _ _ _ _ _ _ w Ho Hn eq_refl). }
  assert (Hpersonal : forall extra,
             _get_repository_name_raw "personal" extra
             = dict_item extra "bitbucket_repo_name") by reflexivity.
  assert (Hteam_name : forall extra,
             _get_repository_name_raw "team" extra
             = dict_item extra "bitbucket_team_repo_name") by reflexivity.
  assert (Hother_name : forall extra,
             _get_repository_name_raw "other-user" extra
             = dict_item extra "bitbucket_other_user_repo_name") by reflexivity.
  assert (Hteam_owner : forall extra,
             _get_repository_owner_raw "team" extra w
             = (dict_item extra "bitbucket_team_name", w)) by reflexivity.
  assert (Hother_owner : forall extra,
             _get_repository_owner_raw "other-user" extra w
             = (dict_item extra "bitbucket_other_user_username", w)) by reflexivity.
  split; [|split].
  - intros Hp name Hname.
    assert (Hp' : _get_repository_plan repository = "personal")
      by (rewrite Hplan; destruct Hp as [Hp|Hp]; rewrite Hp; reflexivity).
    apply Hrun.
    + unfold _get_repository_owner. rewrite Hp'. reflexivity.
    + unfold _get_repository_name. rewrite Hp', Hpersonal.
      unfold dict_item. rewrite Hname. reflexivity.
  - intros Hp team name Hteam Hname.
    assert (Hp' : _get_repository_plan repository = "team")
      by (rewrite Hplan, Hp; reflexivity).
    apply Hrun.
    + unfold _get_repository_owner. rewrite Hp', Hteam_owner.
      unfold dict_item. rewrite Hteam. reflexivity.
    + unfold _get_repository_name. rewrite Hp', Hteam_name.
      unfold dict_item. rewrite Hname. reflexivity.
  - intros Hp owner name Howner Hname.
    assert (Hp' : _get_repository_plan repository = "other-user")
      by (rewrite Hplan, Hp; reflexivity).
    apply Hrun.
    + unfold _get_repository_owner. rewrite Hp', Hother_owner.
      unfold dict_item. rewrite Howner. reflexivity.
    + unfold _get_repository_name. rewrite Hp', Hother_name.
      unfold dict_item. rewrite Hname. reflexivity.
Qed.

(** X10. On a cache miss, when [get_commits] raises or returns no commit,
    [get_change] raises (the same error, or [IndexError]) in the world
    [get_commits] left: the diff is not requested. *)
Theorem get_change_without_metadata (repository : Repository) (revision : string)
    (w w1 : world) (r : result (list Commit)) :
  cache_get E (get_commit_cache_key E repository revision) = None ->
  get_commits E repository (Some revision) None w = (r, w1) ->
  match r with
  | inl e => get_change E repository revision w = (inl e, w1)
  | inr [] => get_change E repository revision w = (inl IndexError, w1)
  | inr (_ :: _) => True
  end.
Proof.
  intros Hcache Hcommits. unfold get_change. rewrite Hcache.
  destruct r as [e|[|meta rest]]; [| |exact I].
  - apply bind_raises, bind_raises, Hcommits.
  - apply bind_raises. rewrite (bind_ok _ _ _ _ _ Hcommits). reflexivity.
Qed.

End PlanProperties.
End Plans.

Module Files.
Import Bitbucket Authorization Listing.

Section FileProperties.
Context (E : Externals).

(** X11. [get_file_exists] answers [True] exactly when [get_file] returns
    the file, and then both leave the same world (they send the same
    request). *)
Theorem get_file_exists_iff_get_file (repository : Repository)
    (path revision : string) (base_commit_id : option string) (w w' : world) :
  (exists content,
      get_file E repository path revision base_commit_id w = (inr content, w'))
  <-> get_file_exists E repository path revision base_commit_id w = (inr true, w').
Proof.
  unfold get_file, get_file_exists, try_except, bind.
  destruct (_api_get_src E repository path revision base_commit_id w) as [[e|v] w1].
  - split.
    + intros [content H]. destruct e; discriminate.
    + destruct e; discriminate.
  - split.
    + intros [content [= _ <-]]. reflexivity.
    + intros [= <-]. exists v. reflexivity.
Qed.

(** X12. [get_file] never raises [URLError] or [HTTPError]: either one
    raised while fetching becomes a [FileNotFoundError] for the path and the
    revision asked for. *)
Theorem get_file_never_raises_url_error (repository : Repository)
    (path revision : string) (base_commit_id : option string) (w w' : world)
    (e : exn) :
  get_file E repository path revision base_commit_id w = (inl e, w') ->
  is_url_error e = false
  /\ (forall e0, _api_get_src E repository path revision base_commit_id w = (inl e0, w') ->
                 is_url_error e0 = true ->
                 e = FileNotFoundError path (Some revision) None None).
Proof.
  unfold get_file, try_except.
  destruct (_api_get_src E repository path revision base_commit_id w) as [[e0|v] w1];
    [|discriminate].
  destruct e0; intros [= <- <-]; (split; [reflexivity|]);
    intros e1 [= <-]; try discriminate; reflexivity.
Qed.

(** X13. With a base commit ID, or for a tool other than Git,
    [_api_get_src] sends one request for
    ['repositories/<owner>/<name>/raw/<revision>/<path>'], every part
    quoted, where the revision is the base commit ID when one is given; it
    returns the body, and a [FileNotFoundError] from the API is raised anew
    with the path, the revision used and the base commit ID. *)
Theorem api_get_src_request (repository : Repository) (path revision : string)
    (base_commit_id : option string) (w w0 : world) (owner name stored : string) :
  opt_truthy base_commit_id = true \/ tool_name repository <> "Git" ->
  _get_repository_owner repository w = (inr owner, w0) ->
  _get_repository_name repository = inr name ->
  account_data w !! "password" = Some stored ->
  let used := src_revision revision base_commit_id in
  let url := src_url E owner name used path in
  _api_get_src E repository path revision base_commit_id w
  = (match api_response E url true (account_username w) stored with
     | inl (FileNotFoundError _ _ _ _) =>
         inl (FileNotFoundError path (Some used) base_commit_id None)
     | other => other
     end,
     requested url w).
Proof.
  intros Hwhich Howner Hname Hpw used url.
  assert (Hrev : (if opt_truthy base_commit_id then ret (default "" base_commit_id)
                  else if String.eqb (tool_name repository) "Git" then
                    raise (FileNotFoundError path (Some revision) None
                             (Some MISSING_REVISION_DETAIL))
                  else ret revision) w = (inr used, w)).
  { unfold used, src_revision, opt_truthy.
    destruct base_commit_id as [b|]; simpl.
    - destruct (str_truthy b) eqn:Hb; [reflexivity|].
      destruct Hwhich as [Hw|Hw]; [simpl in Hw; congruence|].
      apply String.eqb_neq in Hw. rewrite Hw. reflexivity.
    - destruct Hwhich as [Hw|Hw]; [discriminate|].
      apply String.eqb_neq in Hw. rewrite Hw. reflexivity. }
  unfold _api_get_src.
  rewrite (bind_ok _ _ _ _ _ Hrev).
  rewrite (bind_ok _ _ _ _ _ (owner_frame _ _ _ _ w Howner eq_refl)).
  rewrite (bind_ok _ _ w w name) by (unfold lift; rewrite Hname; reflexivity).
  cbv zeta.
  change (_build_api_url
            ("repositories/" +:+ quote E owner +:+ "/" +:+ quote E name +:+ "/raw/"
               +:+ quote E used +:+ "/" +:+ quote E path) "1.0") with url.
  unfold try_except. rewrite (api_get_run E url true w stored Hpw).
  destruct (api_response E url true (account_username w) stored) as [e|v];
    [|reflexivity].
  destruct e; reflexivity.
Qed.

Lemma mapR_inv {A B : Type} (f : A -> result B) (l : list A) (ys : list B) :
  mapR f l = inr ys -> Forall2 (fun x y => f x = inr y) l ys.
Proof.
  revert ys. induction l as [|x l IH]; simpl; intros ys.
  - intros [= <-]. constructor.
  - destruct (f x) as [e|y] eqn:Hx; [discriminate|]. simpl.
    destruct (mapR f l) as [e|ys'] eqn:Hl; [discriminate|]. simpl.
    intros [= <-]. constructor; [exact Hx|]. apply IH. reflexivity.
Qed.

Lemma get_branches_inv (repository : Repository) (w w' : world)
    (branches : list Branch) :
  get_branches E repository w = (inr branches, w') ->
  exists default_branch_name,
    Forall (fun b => branch_default b = json_is_str (branch_id b) default_branch_name)
      branches.
Proof.
  unfold get_branches, bind.
  destruct (_get_default_branch_name E repository w) as [[e|d] w1]; [discriminate|].
  destruct (_build_repository_api_url repository "branches/" "1.0" w1)
    as [[e|url] w2]; [discriminate|].
  destruct (_api_get E url false w2) as [[e|rsp] w3]; [discriminate|].
  unfold lift. destruct (py_iteritems rsp) as [e|items]; [discriminate|].
  destruct (mapR (branch_of_item d) items) as [e|bs] eqn:Hmap; [discriminate|].
  intros [= <- _]. exists d.
  apply mapR_inv in Hmap. induction Hmap as [|item b items bs Hb _ IH]; constructor.
  - unfold branch_of_item, rbind in Hb.
    destruct (py_getitem item.2 "raw_node"); [discriminate|].
    injection Hb as <-. reflexivity.
  - exact IH.
Qed.

Lemma filter_none {A : Type} (P : A -> bool) (l : list A) :
  (forall y, In y l -> P y = false) -> List.filter P l = [].
Proof.
  induction l as [|a l IH]; simpl; [reflexivity|].
  intros Hall. rewrite (Hall a) by auto. apply IH. intros y Hy. apply Hall. auto.
Qed.

Lemma at_most_one {A : Type} (f : A -> string) (P : A -> bool) (l : list A) :
  NoDup (map f l) ->
  (forall x y, In x l -> In y l -> P x = true -> P y = true -> f x = f y) ->
  (List.length (List.filter P l) <= 1)%nat.
Proof.
  induction l as [|a l IH]; simpl; [lia|].
  intros Hnd Hsame. inversion Hnd as [|? ? Hnotin Hnd']; subst.
  destruct (P a) eqn:Ha.
  - rewrite filter_none; [simpl; lia|].
    intros y Hy. destruct (P y) eqn:Hpy; [|reflexivity].
    exfalso. apply Hnotin. apply list_elem_of_In.
    rewrite (Hsame a y); auto. apply in_map. exact Hy.
  - apply IH; [exact Hnd'|]. intros x y Hx Hy. apply Hsame; auto.
Qed.

(** X14. Among the branches [get_branches] returns, every default branch
    bears the default branch name; so when the branch names are distinct, as
    the keys of the branches response are, at most one branch is the
    default. *)
Theorem get_branches_single_default (repository : Repository) (w w' : world)
    (branches : list Branch) :
  get_branches E repository w = (inr branches, w') ->
  NoDup (map branch_id branches) ->
  (List.length (List.filter branch_default branches) <= 1)%nat.
Proof.
  intros Hrun Hnd. destruct (get_branches_inv _ _ _ _ Hrun) as [d Hall].
  apply (at_most_one branch_id); [exact Hnd|].
  rewrite Forall_forall in Hall.
  intros x y Hx Hy Hdx Hdy.
  apply list_elem_of_In, Hall in Hx. apply list_elem_of_In, Hall in Hy.
  rewrite Hx in Hdx. rewrite Hy in Hdy.
  apply json_is_str_true in Hdx, Hdy. congruence.
Qed.

End FileProperties.
End Files.

Module WebhookMore.
Import Bitbucket Webhook.

Lemma foldR_invariant {A B : Type} (P : A -> Prop) (f : A -> B -> result A)
    (l : list B) :
  (forall a x a', P a -> f a x = inr a' -> P a') ->
  forall a a', P a -> foldR f a l = inr a' -> P a'.
Proof.
  intros Hstep. induction l as [|x l IH]; simpl; intros a a' Ha.
  - intros [= <-]. exact Ha.
  - destruct (f a x) as [e|a1] eqn:Hx; [discriminate|]. simpl.
    apply IH. exact (Hstep a x a1 Ha Hx).
Qed.

Lemma append_to_nonempty (k : option Z) (x : string) (d : id_map) :
  (forall k' l, d !! k' = Some l -> (0 < List.length l)%nat) ->
  forall k' l, append_to k x d !! k' = Some l -> (0 < List.length l)%nat.
Proof.
  intros Hd k' l. unfold append_to.
  destruct (decide (k = k')) as [->|Hne].
  - rewrite lookup_insert_eq. intros [= <-]. rewrite length_app. simpl. lia.
  - rewrite lookup_insert_ne by exact Hne. apply Hd.
Qed.

Section HookProperties.
Context (E : Externals).

(** X15. In every dictionary [_get_review_request_id_to_commits_map]
    returns, whatever the payload, each key present holds at least one
    entry. *)
Theorem commits_map_lists_nonempty (payload : json) (server_url : string)
    (repository : Repository) (d : id_map) :
  _get_review_request_id_to_commits_map E payload server_url repository = inr d ->
  forall k l, d !! k = Some l -> (0 < List.length l)%nat.
Proof.
  unfold _get_review_request_id_to_commits_map, rbind.
  destruct (py_get payload "commits" (JArr [])) as [e|commits]; [discriminate|].
  destruct (py_iter commits) as [e|items]; [discriminate|].
  apply (foldR_invariant
           (fun d : id_map => forall k l, d !! k = Some l -> (0 < List.length l)%nat)).
  - intros a c a' Ha. unfold add_commit, rbind.
    destruct (py_get c "raw_node" JNull) as [e|commit_hash]; [discriminate|].
    destruct (py_get c "message" JNull) as [e|commit_message]; [discriminate|].
    destruct (py_get c "branch" JNull) as [e|branch_name]; [discriminate|].
    destruct (truthy branch_name).
    + destruct (py_slice_to 7 commit_hash) as [e|short]; [discriminate|].
      intros [= <-]. apply append_to_nonempty, Ha.
    + intros [= <-]. exact Ha.
  - intros k l. rewrite lookup_empty. discriminate.
Qed.

(** X16. A push of the webhook's shape in which no commit has a branch
    value closes nothing: the handler answers 200 and leaves the world as it
    was. *)
Theorem hook_without_branches_closes_nothing (request : Request)
    (local_site_name repository_id hosting_service_id hooks_uuid : option string)
    (text : string) (payload : json) (commits : list json) (w : world) :
  POST request !! "payload" = Some text ->
  json_loads E text = Some payload ->
  payload_commits payload = Some commits ->
  forallb (fun c => negb (has_branch c)) commits = true ->
  post_receive_hook_close_submitted E request local_site_name repository_id
    hosting_service_id hooks_uuid w
  = (inr (mkResponse 200 ""), w).
Proof.
  intros Hpost Hjson Hshape Hnone.
  destruct (commits_map_run E payload (get_server_url E request)
              (get_repository_for_hook E repository_id hosting_service_id
                 local_site_name hooks_uuid) commits Hshape) as (d & Hmap & Hlook).
  assert (Hempty : d = ∅).
  { apply map_eq. intros k. rewrite Hlook, lookup_empty. unfold entries_for.
    assert (Hfilter :
              List.filter
                (fun c => has_branch c
                          && bool_decide
                               (commit_review_request_id E (get_server_url E request)
                                  (get_repository_for_hook E repository_id
                                     hosting_service_id local_site_name hooks_uuid) c
                                = k)) commits = []).
    { clear Hshape Hmap Hlook. induction commits as [|c cs IH]; [reflexivity|].
      simpl in *. apply andb_prop in Hnone as [Hc Hcs].
      destruct (has_branch c); [discriminate|]. simpl. apply IH, Hcs. }
    rewrite Hfilter. reflexivity. }
  unfold post_receive_hook_close_submitted. rewrite Hpost, Hjson, Hmap, Hempty.
  reflexivity.
Qed.

(** X18. [_parse_timestamp] only accepts text; its result has the length of
    the timestamp and no blank in it, and a timestamp without a blank comes
    back unchanged. *)
Theorem parse_timestamp_spec (timestamp : json) :
  match timestamp with
  | JStr t =>
      exists t', _parse_timestamp timestamp = inr (JStr t')
                 /\ String.length t' = String.length t
                 /\ no_blank t' = true
                 /\ (no_blank t = true -> t' = t)
  | _ => _parse_timestamp timestamp = inl AttributeError
  end.
Proof.
  destruct timestamp as [| | |t| |]; try reflexivity.
  exists (replace_space_T t). split; [reflexivity|].
  induction t as [|c t (Hlen & Hblank & Hsame)]; [repeat split|].
  simpl. destruct (Ascii.eqb c " ") eqn:Hc; simpl.
  - repeat split; [congruence|exact Hblank|discriminate].
  - rewrite Hc. simpl. repeat split; [congruence|exact Hblank|].
    intros Ht. rewrite (Hsame Ht). reflexivity.
Qed.

End HookProperties.
End WebhookMore.

(** * Further properties of the datagrids *)

Module GridsMore.
Import Grids.

Section Reload.
Context (parse_int : string -> option Z).

(** X19. [load_extra_state] leaves the profile in step with the grid: a
    second call, on the grid and the profile the first call left, reports no
    change. *)
Theorem load_extra_state_stable (self : DataGrid) (profile : option Profile) :
  let '(_, self', profile') := load_extra_state parse_int self profile in
  let '(changed, self'', profile'') := load_extra_state parse_int self' profile' in
  changed = false
  /\ profile'' = profile'
  /\ grid_show_closed self'' = grid_show_closed self'.
Proof.
  unfold load_extra_state, int_of_show_closed_param.
  destruct (GET self !! "show-closed") as [text|] eqn:Hget;
    [destruct (parse_int text) as [n|] eqn:Hparse; [destruct (n =? 0) eqn:Hn|]|];
    destruct profile as [[[|]]|]; destruct (grid_show_closed self);
    simpl; rewrite ?Hget; simpl; rewrite ?Hparse; simpl; rewrite ?Hn; simpl; auto.
Qed.

End Reload.

Section DashboardProperties.
Context (group_get : string -> option Z -> option Group).
Context (is_accessible_by : Group -> Z -> bool).
Context (profile_get_or_create : Z -> Z * bool).

(** X20. The dashboard's [load_extra_state] raises [Http404] exactly when
    the view asked for (the default view when the request names none) is not
    one of the six views, or is ['to-group'] with a group name for which no
    group exists on the site or which the user may not see.  Whenever it
    returns, it returns [False] and has chosen a queryset. *)
Theorem dashboard_not_found_iff (self : Dashboard) (profile : option Profile) :
  let view := default (dash_default_view self) (dash_GET self !! "view") in
  let group := default "" (dash_GET self !! "group") in
  let run :=
    dashboard_load_extra_state group_get is_accessible_by profile_get_or_create self
      profile in
  (run = Http404
   <-> is_dashboard_view view = false
       \/ (view = "to-group" /\ group <> ""
           /\ group_visible group_get is_accessible_by self group = false))
  /\ (forall changed self',
        run = Returned (changed, self') ->
        changed = false /\ dash_queryset self' <> None).
Proof.
  intros view group run. unfold run, dashboard_load_extra_state, is_dashboard_view,
    group_visible.
  fold view. fold group. simpl.
  destruct (String.eqb_spec view "outgoing") as [Hv|Hv1];
    [split; [split; [discriminate|intros [?|(Hg & _)]; [discriminate|congruence]]
            |intros ? ? [= <- <-]; split; [reflexivity|discriminate]]|].
  destruct (String.eqb_spec view "mine") as [Hv|Hv2];
    [split; [split; [discriminate|intros [?|(Hg & _)]; [discriminate|congruence]]
            |intros ? ? [= <- <-]; split; [reflexivity|discriminate]]|].
  destruct (String.eqb_spec view "to-me") as [Hv|Hv3];
    [split; [split; [discriminate|intros [?|(Hg & _)]; [discriminate|congruence]]
            |intros ? ? [= <- <-]; split; [reflexivity|discriminate]]|].
  destruct (String.eqb_spec view "to-group") as [Hv|Hv4].
  - simpl. destruct (String.eqb_spec group "") as [Hg|Hg]; simpl.
    + split; [split; [discriminate|intros [?|(_ & Hne & _)]; [discriminate|congruence]]
             |intros ? ? [= <- <-]; split; [reflexivity|discriminate]].
    + destruct (group_get group (dash_local_site self)) as [g|].
      * destruct (is_accessible_by g (dash_user self)); simpl.
        -- split; [split; [discriminate|intros [?|(_ & _ & ?)]; discriminate]
                  |intros ? ? [= <- <-]; split; [reflexivity|discriminate]].
        -- split; [split; [intros _; right; auto|reflexivity]|discriminate].
      * split; [split; [intros _; right; auto|reflexivity]|discriminate].
  - destruct (String.eqb_spec view "starred") as [Hv|Hv5].
    + destruct (profile_get_or_create (dash_user self)) as [p is_new]. simpl.
      split; [split; [discriminate|intros [?|(Hg & _)]; [discriminate|congruence]]
             |intros ? ? [= <- <-]; split; [reflexivity|discriminate]].
    + destruct (String.eqb_spec view "incoming") as [Hv|Hv6]; simpl.
      * split; [split; [discriminate|intros [?|(Hg & _)]; [discriminate|congruence]]
               |intros ? ? [= <- <-]; split; [reflexivity|discriminate]].
      * split; [split; [intros _; left; reflexivity|reflexivity]|discriminate].
Qed.

End DashboardProperties.

Lemma sorted_dict_get_set (k k' : string) (v : Z) (d : list (string * Z)) :
  sorted_dict_get k' (sorted_dict_set k v d)
  = if String.eqb k' k then Some v else sorted_dict_get k' d.
Proof.
  induction d as [|[k0 v0] d IH]; simpl.
  - destruct (String.eqb k' k); reflexivity.
  - destruct (String.eqb_spec k k0) as [->|Hne]; simpl.
    + destruct (String.eqb k' k0); reflexivity.
    + rewrite IH. destruct (String.eqb_spec k' k0) as [->|Hne'].
      * destruct (String.eqb_spec k0 k); [congruence|reflexivity].
      * reflexivity.
Qed.

Lemma fill_group_counts_get (k : string) (rows : list Group) :
  forall d,
    sorted_dict_get k (fill_group_counts rows d)
    = match last_count k rows with
      | Some v => Some v
      | None => sorted_dict_get k d
      end.
Proof.
  unfold fill_group_counts.
  induction rows as [|g rows IH]; intros d; simpl; [reflexivity|].
  rewrite IH. destruct (last_count k rows); [reflexivity|].
  rewrite sorted_dict_get_set. destruct (String.eqb k (group_name g)); reflexivity.
Qed.

Lemma sorted_dict_set_fresh (k : string) (v : Z) (d : list (string * Z)) :
  ~ In k (map fst d) -> sorted_dict_set k v d = d ++ [(k, v)].
Proof.
  induction d as [|[k0 v0] d IH]; simpl; [reflexivity|].
  intros Hnotin. destruct (String.eqb_spec k k0) as [->|Hne]; [tauto|].
  rewrite IH; [reflexivity|tauto].
Qed.

Lemma fill_group_counts_distinct (rows : list Group) :
  forall d,
    NoDup (map group_name rows) ->
    (forall g, In g rows -> ~ In (group_name g) (map fst d)) ->
    fill_group_counts rows d
    = d ++ map (fun g => (group_name g, incoming_request_count g)) rows.
Proof.
  unfold fill_group_counts.
  induction rows as [|g rows IH]; intros d Hnd Hfresh; simpl.
  - by rewrite app_nil_r.
  - inversion Hnd as [|? ? Hnotin Hnd']; subst.
    rewrite sorted_dict_set_fresh by (apply Hfresh; simpl; auto).
    rewrite IH.
    + by rewrite <- app_assoc.
    + exact Hnd'.
    + intros g' Hg'. rewrite map_app, in_app_iff. simpl.
      intros [Hin|[Heq|[]]].
      * apply (Hfresh g'); simpl; auto.
      * apply Hnotin. rewrite Heq. apply list_elem_of_In, in_map, Hg'.
Qed.

Section Sidebar.
Context (profile_get_or_create : Z -> Z * bool).
Context (site_profile_get_or_create : option Z -> Z -> Z -> LocalSiteProfile * bool).
Context (groups_of_user : Z -> option Z -> list Group).
Context (groups_starred_by : Z -> option Z -> list Group).

(** X21. In the counts [get_sidebar_counts] returns, the ['groups'] entry
    maps each name among the user's groups to the incoming request count of
    the last group with that name, and holds no other name; when the names
    are distinct it lists the groups in the order of the query.  The site
    profile is saved exactly when it was newly created. *)
Theorem sidebar_groups (user : Z) (site : option Z) :
  let rows := groups_of_user user site in
  let run :=
    get_sidebar_counts profile_get_or_create site_profile_get_or_create groups_of_user
      groups_starred_by user site in
  (forall name, sorted_dict_get name (groups run.1) = last_count name rows)
  /\ (NoDup (map group_name rows) ->
      groups run.1 = map (fun g => (group_name g, incoming_request_count g)) rows)
  /\ (run.2 = [] <->
      (site_profile_get_or_create site user (profile_get_or_create user).1).2 = false).
Proof.
  intros rows run. unfold run, rows, get_sidebar_counts. clear rows run.
  destruct (profile_get_or_create user) as [profile is_new_profile].
  destruct (site_profile_get_or_create site user profile) as [site_profile is_new]
    eqn:Hsite.
  simpl. rewrite Hsite. simpl. split; [|split].
  - intros name. rewrite fill_group_counts_get.
    destruct (last_count name (groups_of_user user site)); reflexivity.
  - intros Hnd. rewrite fill_group_counts_distinct; auto.
  - destruct is_new; simpl; split; intros H; (discriminate H || reflexivity).
Qed.

End Sidebar.
End GridsMore.

Module ExtraSamples.
Import Bitbucket Samples ApiRequests Repositories Plans Files WebhookMore.

Lemma api_get_never_raises_http_error_witness :
  _api_get denied_externals "https://bitbucket.org/api/1.0/user" false authorized_world
  = (inl (AuthorizationError "Bad credentials"),
     requested "https://bitbucket.org/api/1.0/user" authorized_world)
  /\ is_http_error (AuthorizationError "Bad credentials") = false.
Proof.
  split; [reflexivity|].
  exact (api_get_never_raises_http_error denied_externals
           "https://bitbucket.org/api/1.0/user" false authorized_world _ _ eq_refl).
Defined.

Lemma check_api_error_plain_body_witness :
  _check_api_error api_externals 404 "Repository alice/rb not found"
  = HostingServiceError "Repository alice/rb not found" (Some 404).
Proof.
  exact (check_api_error_plain_body api_externals 404 "Repository alice/rb not found"
           (or_introl eq_refl)).
Defined.

Lemma check_api_error_json_message_witness :
  _check_api_error denied_externals 401 "denied" = AuthorizationError "Bad credentials".
Proof.
  exact (check_api_error_json_message denied_externals 401 "denied" "Bad credentials"
           [("error", JObj [("message", JStr "Bad credentials")])]
           [("message", JStr "Bad credentials")] eq_refl eq_refl eq_refl).
Defined.

Lemma check_repository_rejects_bad_names_witness :
  check_repository api_externals sample_plan_message "personal"
    {["bitbucket_repo_name" := "rb.git"]} authorized_world
  = (inl (RepositoryError GIT_IN_NAME_MESSAGE), authorized_world).
Proof.
  exact (check_repository_rejects_bad_names api_externals sample_plan_message "personal"
           {["bitbucket_repo_name" := "rb.git"]} "rb.git" authorized_world
           eq_refl eq_refl).
Defined.

Lemma check_repository_outcome_witness :
  check_repository api_externals sample_plan_message "personal"
    {["bitbucket_repo_name" := "rb"]} authorized_world
  = (inl (FileNotFoundError "" None None None),
     requested "https://bitbucket.org/api/1.0/repositories/alice/rb" authorized_world).
Proof.
  exact (check_repository_outcome api_externals sample_plan_message "personal"
           {["bitbucket_repo_name" := "rb"]} "alice" "rb" "enc:secret"
           authorized_world authorized_world eq_refl eq_refl eq_refl eq_refl eq_refl).
Defined.

Lemma is_authorized_after_authorize_witness :
  is_authorized
    (mkWorld "alice" ∅ {["password" := "enc:secret"]}
       ["https://bitbucket.org/api/1.0/user"] [] [])
  = (inr false,
     mkWorld "alice" ∅ {["password" := "enc:secret"]}
       ["https://bitbucket.org/api/1.0/user"] [] []).
Proof.
  exact (is_authorized_after_authorize offline_externals "alice" "new" authorized_world
           (mkWorld "alice" ∅ {["password" := "enc:secret"]}
              ["https://bitbucket.org/api/1.0/user"] [] [])
           (inl URLError) eq_refl).
Defined.

Lemma unknown_plan_sends_nothing_witness :
  get_branches api_externals odd_repository authorized_world
  = (inl (InvalidPlanError "enterprise"), authorized_world)
  /\ get_commits api_externals odd_repository None None authorized_world
     = (inl (InvalidPlanError "enterprise"), authorized_world)
  /\ get_change api_externals odd_repository "abc" authorized_world
     = (inl (InvalidPlanError "enterprise"), authorized_world).
Proof.
  destruct (unknown_plan_sends_nothing api_externals odd_repository authorized_world
              eq_refl) as (Hb & Hc & Hg).
  split; [exact Hb|split; [exact (Hc None None)|exact (Hg "abc")]].
Defined.

Lemma repository_url_by_plan_witness :
  _build_repository_api_url team_repository "branches/" "1.0" authorized_world
  = (inr "https://bitbucket.org/api/1.0/repositories/core/rb/branches/", authorized_world)
  /\ _build_repository_api_url sample_repository "branches/" "1.0" authorized_world
     = (inr "https://bitbucket.org/api/1.0/repositories/alice/rb/branches/",
        authorized_world).
Proof.
  split.
  - exact (proj1 (proj2 (repository_url_by_plan team_repository "branches/" "1.0"
                           authorized_world)) eq_refl "core" "rb" eq_refl eq_refl).
  - exact (proj1 (repository_url_by_plan sample_repository "branches/" "1.0"
                    authorized_world) (or_introl eq_refl) "rb" eq_refl).
Defined.

Lemma get_change_without_metadata_witness :
  get_change api_externals sample_repository "zzz" authorized_world
  = (inl (FileNotFoundError "" None None None),
     requested
       "https://bitbucket.org/api/1.0/repositories/alice/rb/changesets/?limit=20&start=zzz"
       authorized_world).
Proof.
  exact (get_change_without_metadata api_externals sample_repository "zzz"
           authorized_world _ (inl (FileNotFoundError "" None None None))
           eq_refl eq_refl).
Defined.

Lemma get_file_never_raises_url_error_witness :
  get_file offline_externals sample_repository "README" "tip" (Some "abc")
    authorized_world
  = (inl (FileNotFoundError "README" (Some "tip") None None),
     requested "https://bitbucket.org/api/1.0/repositories/alice/rb/raw/abc/README"
       authorized_world)
  /\ is_url_error (FileNotFoundError "README" (Some "tip") None None) = false.
Proof.
  split; [reflexivity|].
  exact (proj1 (get_file_never_raises_url_error offline_externals sample_repository
                  "README" "tip" (Some "abc") authorized_world _ _ eq_refl)).
Defined.

Lemma api_get_src_request_witness :
  _api_get_src api_externals team_repository "README" "tip" None authorized_world
  = (inl (FileNotFoundError "README" (Some "tip") None None),
     requested "https://bitbucket.org/api/1.0/repositories/core/rb/raw/tip/README"
       authorized_world).
Proof.
  assert (Htool : tool_name team_repository <> "Git") by discriminate.
  pose proof (api_get_src_request api_externals team_repository "README" "tip" None
                authorized_world authorized_world "core" "rb" "enc:secret"
                (or_intror Htool) eq_refl eq_refl eq_refl) as Hrun.
  vm_compute in Hrun. vm_compute. exact Hrun.
Defined.

Lemma get_branches_single_default_witness :
  (List.length
     (List.filter branch_default
        [mkBranch "master" (JStr "2222222222") true;
         mkBranch "stable" (JStr "1111111111") false]) <= 1)%nat.
Proof.
  apply (get_branches_single_default api_externals sample_repository authorized_world
           (requested "https://bitbucket.org/api/1.0/repositories/alice/rb/branches/"
              (requested "https://bitbucket.org/api/1.0/repositories/alice/rb/main-branch/"
                 authorized_world))).
  - reflexivity.
  - apply (bool_decide_unpack _). vm_compute. exact I.
Defined.

Lemma commits_map_lists_nonempty_witness :
  (0 < List.length ["master (0123456)"])%nat.
Proof.
  apply (commits_map_lists_nonempty sample_externals
           (JObj [("commits",
                   JArr [JObj [("raw_node", JStr "0123456789abcdef");
                               ("message", JStr "Reviewed at /r/42/");
                               ("branch", JStr "master")]])])
           "https://reviews.example.com/" sample_repository
           {[Some 42 := ["master (0123456)"]]} eq_refl (Some 42)).
  reflexivity.
Defined.

Lemma hook_without_branches_closes_nothing_witness :
  post_receive_hook_close_submitted branchless_externals (sample_request "quiet push")
    None (Some "1") (Some "bitbucket") (Some "abc") sample_world
  = (inr (mkResponse 200 ""), sample_world).
Proof.
  exact (hook_without_branches_closes_nothing branchless_externals
           (sample_request "quiet push") None (Some "1") (Some "bitbucket") (Some "abc")
           "quiet push" branchless_push
           [JObj [("raw_node", JStr "fedcba9876543210");
                  ("message", JStr "Reviewed at /r/42/")];
            JObj [("raw_node", JStr "0123456789abcdef");
                  ("message", JStr "Tidy up");
                  ("branch", JStr "")]]
           sample_world eq_refl eq_refl eq_refl eq_refl).
Defined.

End ExtraSamples.

Module GridSamples.
Import Grids GridsMore.

Lemma sidebar_groups_witness :
  groups
    (get_sidebar_counts (fun user => (user, false))
       (fun _ _ _ => (mkLocalSiteProfile 1 2 3 4 5, true))
       (fun _ _ => [mkGroup 1 "dev" 3; mkGroup 2 "ops" 0]) (fun _ _ => [])
       7 None).1
  = [("dev", 3); ("ops", 0)].
Proof.
  apply (proj1 (proj2 (sidebar_groups (fun user => (user, false))
                         (fun _ _ _ => (mkLocalSiteProfile 1 2 3 4 5, true))
                         (fun _ _ => [mkGroup 1 "dev" 3; mkGroup 2 "ops" 0])
                         (fun _ _ => []) 7 None))).
  apply (bool_decide_unpack _). vm_compute. exact I.
Defined.

(** A request for the groups view of a group that does not exist. *)
Example dashboard_unknown_group :
  dashboard_load_extra_state (fun _ _ => None) (fun _ _ => true) (fun u => (u, false))
    (mkDashboard 7 None "incoming" {["view" := "to-group"; "group" := "ghosts"]}
       None "" [])
    None
  = Http404.
Proof. reflexivity. Qed.

Example dashboard_default_view :
  dashboard_load_extra_state (fun _ _ => None) (fun _ _ => true) (fun u => (u, false))
    (mkDashboard 7 (Some 1) "incoming" ∅ None "" []) None
  = Returned (false,
              mkDashboard 7 (Some 1) "incoming" ∅ (Some (to_user 7 7 (Some 1)))
                "All Incoming Review Requests" []).
Proof. reflexivity. Qed.

End GridSamples.
